(** * The request gateway of [frontend/src/lib/api.js]

    A shallow embedding of the API client: URL construction, error-message
    extraction, the [request] function with its one-shot origin fallback,
    and the request builders the module exports.

    Conventions of the embedding.
    - A JavaScript string is a Rocq [string] holding its UTF-8 bytes.  The
      string operations the module uses (tests against ASCII literals,
      removal of a final ["/"], concatenation, equality, the ASCII
      case-insensitive search of [/Network Error/i]) give the same answer
      on the UTF-8 bytes as on UTF-16 code units.
    - A JavaScript number is a binary64 float ([PrimFloat.float]); an HTTP
      status code is an integer ([Z]).
    - An object is an association list in insertion order.
    - The module-level [let activeBaseUrl], the requests handed to axios
      and the console output live in an explicit [World]; an [async]
      function is a function from worlds to a completion and a world.
      Calls run one after the other: a call settles before the next one
      starts. *)

From Stdlib Require Import String Ascii List ZArith Bool Arith Lia PrimFloat.
From Stdlib Require Import DecimalString DecimalNat.
From Equations Require Import Equations.
From Equations.Prop Require Import Logic.
Import ListNotations.
Open Scope string_scope.

(** ** Strings *)

Module JsString.

(** [s.startsWith(p)] *)
Definition startsWith (s p : string) : bool := String.prefix p s.

(** [s.endsWith(p)] *)
Definition endsWith (s p : string) : bool :=
  let n := String.length s in
  let m := String.length p in
  (m <=? n)%nat && String.eqb (String.substring (n - m) m s) p.

(** [s.slice(0, -1)] *)
Definition slice_0_minus1 (s : string) : string :=
  String.substring 0 (String.length s - 1) s.

(** [!s] for a string [s] *)
Definition isEmpty (s : string) : bool :=
  match s with EmptyString => true | String _ _ => false end.

(** ASCII upper-case letters to lower case, every other byte unchanged:
    the canonicalisation under which the [i] flag compares a subject
    with an ASCII pattern. *)
Definition fold_case (c : ascii) : ascii :=
  let n := nat_of_ascii c in
  if ((65 <=? n) && (n <=? 90))%nat then ascii_of_nat (n + 32) else c.

Fixpoint fold_case_str (s : string) : string :=
  match s with
  | EmptyString => EmptyString
  | String c r => String (fold_case c) (fold_case_str r)
  end.

(** [s.includes(needle)] *)
Fixpoint includes (needle s : string) : bool :=
  String.prefix needle s ||
  match s with
  | EmptyString => false
  | String _ r => includes needle r
  end.

(** [/Network Error/i.test(s)] *)
Definition test_Network_Error_i (s : string) : bool :=
  includes (fold_case_str "Network Error") (fold_case_str s).

(** [s.replace(/\/$/, "")]: without the [m] flag [$] is the end of the
    subject, so at most one final slash goes. *)
Definition replace_final_slash (s : string) : string :=
  if endsWith s "/" then slice_0_minus1 s else s.

(** The white space and line terminators that [trim] removes, as UTF-8:
    TAB LF VT FF CR SP, U+00A0, U+1680, U+2000..U+200A, U+2028, U+2029,
    U+202F, U+205F, U+3000, U+FEFF. *)
Definition bytes (l : list N) : string :=
  fold_right (fun n r => String (ascii_of_N n) r) EmptyString l.

Definition white_space : list string :=
  map bytes
    (app [[9]; [10]; [11]; [12]; [13]; [32]; [194; 160]; [225; 154; 128]]
      (app (map (fun k => [226; 128; 128 + N.of_nat k]) (seq 0 11))
           [[226; 128; 168]; [226; 128; 169]; [226; 128; 175];
            [226; 129; 159]; [227; 128; 128]; [239; 187; 191]]))%N.

(** The subject after one leading white-space character, if it has one. *)
Definition skip_white (s : string) : option string :=
  match find (fun t => String.prefix t s) white_space with
  | Some t => Some (String.substring (String.length t)
                                     (String.length s - String.length t) s)
  | None => None
  end.

Fixpoint trimStart_fuel (fuel : nat) (s : string) : string :=
  match fuel with
  | O => s
  | S fuel' =>
      match skip_white s with
      | Some r => trimStart_fuel fuel' r
      | None => s
      end
  end.

(** [s.trimStart()]; every skip consumes a byte, so the length of the
    subject is fuel enough. *)
Definition trimStart (s : string) : string :=
  trimStart_fuel (String.length s) s.

(** Is the subject white space only? *)
Definition all_white (s : string) : bool :=
  isEmpty (trimStart s).

(** [s.trimEnd()]: the shortest prefix whose remainder is white space. *)
Fixpoint trimEnd (s : string) : string :=
  match s with
  | EmptyString => EmptyString
  | String c r => if all_white s then EmptyString else String c (trimEnd r)
  end.

(** [s.trim()] *)
Definition trim (s : string) : string := trimEnd (trimStart s).

End JsString.

Import JsString.

(** ** Values *)

#[warnings="-register-all"] Inductive Value : Type :=
| VUndefined
| VNull
| VBool (b : bool)
| VNum (n : float)
| VStr (s : string)
| VArr (items : list Value)
| VObj (props : list (string * Value)).

(** ToBoolean: what [!v], [v || w] and [if (v)] look at. *)
Definition truthy (v : Value) : bool :=
  match v with
  | VUndefined | VNull => false
  | VBool b => b
  | VNum n => negb (PrimFloat.eqb n 0 || PrimFloat.is_nan n)
  | VStr s => negb (isEmpty s)
  | VArr _ | VObj _ => true
  end.

(** [a || b] *)
Definition js_or (a b : Value) : Value := if truthy a then a else b.
Infix "|||" := js_or (at level 50, left associativity).

(** [v === null || v === undefined] *)
Definition nullish (v : Value) : bool :=
  match v with VUndefined | VNull => true | _ => false end.

(** [typeof v === "object"] *)
Definition typeof_object (v : Value) : bool :=
  match v with VNull | VArr _ | VObj _ => true | _ => false end.

(** *** Objects as association lists *)

Fixpoint lookup (k : string) (props : list (string * Value)) : option Value :=
  match props with
  | [] => None
  | (k', v) :: rest => if String.eqb k k' then Some v else lookup k rest
  end.

Definition has_key (k : string) (props : list (string * Value)) : bool :=
  match lookup k props with Some _ => true | None => false end.

(** Drop every entry for [k]. *)
Definition remove_key (k : string) (props : list (string * Value))
  : list (string * Value) :=
  filter (fun kv => negb (String.eqb k (fst kv))) props.

(** [{ ...props, k: v }] and [obj.k = v]: an existing key keeps its place
    and takes the new value, a new key goes last. *)
Fixpoint set_key (k : string) (v : Value) (props : list (string * Value))
  : list (string * Value) :=
  match props with
  | [] => [(k, v)]
  | (k', v') :: rest =>
      if String.eqb k k' then (k, v) :: remove_key k rest
      else (k', v') :: set_key k v rest
  end.

(** [v.k] for a [v] that is neither null nor undefined and a name [k]
    that is no index and no built-in member of strings or arrays (every
    name this module reads: error, message, detail, cards, life, text,
    ...): an own property of an object, undefined otherwise. *)
Definition member (v : Value) (k : string) : Value :=
  match v with
  | VObj props => match lookup k props with Some x => x | None => VUndefined end
  | _ => VUndefined
  end.

(** [v?.k] *)
Definition opt_member (v : Value) (k : string) : Value :=
  if nullish v then VUndefined else member v k.
Notation "v ?. k" := (opt_member v k) (at level 1, left associativity, format "v ?. k").

(** *** Object spread *)

Definition index_key (i : nat) : string :=
  NilEmpty.string_of_uint (Nat.to_uint i).

Fixpoint indexed (i : nat) (items : list Value) : list (string * Value) :=
  match items with
  | [] => []
  | x :: rest => (index_key i, x) :: indexed (S i) rest
  end.

(** The UTF-16 code units of a string, each as the UTF-8 (for a lone
    surrogate: the generalised three-byte) encoding of that unit.  A
    four-byte sequence is one code point above U+FFFF and two units. *)
Definition unit3 (u : N) : string :=
  bytes [224 + u / 4096; 128 + (u / 64) mod 64; 128 + u mod 64]%N.

Definition take_bytes (n : nat) (s : string) : string * string :=
  (String.substring 0 n s, String.substring n (String.length s - n) s).

Definition next_units (s : string) : list string * string :=
  match s with
  | EmptyString => ([], EmptyString)
  | String c _ =>
      let b := N_of_ascii c in
      if (b <? 192)%N then
        let '(h, r) := take_bytes 1 s in ([h], r)
      else if (b <? 224)%N then
        let '(h, r) := take_bytes 2 s in ([h], r)
      else if (b <? 240)%N then
        let '(h, r) := take_bytes 3 s in ([h], r)
      else
        let '(h, r) := take_bytes 4 s in
        let byte i := match String.get i h with
                      | Some x => N_of_ascii x | None => 0%N end in
        let cp := ((b mod 8) * 262144 + (byte 1%nat mod 64) * 4096
                   + (byte 2%nat mod 64) * 64 + byte 3%nat mod 64)%N in
        let v := (cp - 65536)%N in
        ([unit3 (55296 + v / 1024); unit3 (56320 + v mod 1024)], r)
  end.

Fixpoint code_units_fuel (fuel : nat) (s : string) : list string :=
  match fuel with
  | O => []
  | S fuel' =>
      match s with
      | EmptyString => []
      | _ => let '(us, r) := next_units s in app us (code_units_fuel fuel' r)
      end
  end.

Definition code_units (s : string) : list string :=
  code_units_fuel (String.length s) s.

(** The own enumerable properties that [{ ...v }] copies. *)
Definition spread (v : Value) : list (string * Value) :=
  match v with
  | VObj props => props
  | VArr items => indexed 0 items
  | VStr s => indexed 0 (map VStr (code_units s))
  | VUndefined | VNull | VBool _ | VNum _ => []
  end.

(** *** Conversion to a string

    The values here hold no functions, so an object converts through
    [Object.prototype.toString] unless an own [toString] property, which
    cannot be called, stands in the way: then [valueOf] is tried, gives no
    primitive either, and the conversion throws a TypeError.  An array
    converts through [join], where null and undefined elements count as
    empty.  [num] is the host's conversion of numbers. *)

(** [parts.join(",")] for parts that are converted already; [None] when
    a conversion threw. *)
Fixpoint join_options (parts : list (option string)) : option string :=
  match parts with
  | [] => Some ""
  | part :: rest =>
      match part, rest with
      | Some a, [] => Some a
      | Some a, _ :: _ =>
          match join_options rest with
          | Some b => Some (a ++ "," ++ b)
          | None => None
          end
      | None, _ => None
      end
  end.

(** [String(v)]; [None] when the conversion throws. *)
Fixpoint to_string (num : float -> string) (v : Value) : option string :=
  match v with
  | VUndefined => Some "undefined"
  | VNull => Some "null"
  | VBool true => Some "true"
  | VBool false => Some "false"
  | VNum n => Some (num n)
  | VStr s => Some s
  | VArr items =>
      join_options
        (map (fun x => if nullish x then Some "" else to_string num x) items)
  | VObj props =>
      if has_key "toString" props then None else Some "[object Object]"
  end.

(** Does [String(v)] return?  The answer does not depend on how numbers
    are written. *)
Fixpoint convertible (v : Value) : bool :=
  match v with
  | VArr items => forallb (fun x => nullish x || convertible x) items
  | VObj props => negb (has_key "toString" props)
  | _ => true
  end.

(** ** Constants and configuration *)

Definition LOCAL_DEFAULT_URL : string := "http://localhost:5000".
Definition REMOTE_FALLBACK_URL : string := "https://astrolog-ai.onrender.com".

(** [import.meta.env]: absent, or a record whose [VITE_API_URL] is absent
    or a string. *)
Record Env : Type := mkEnv { VITE_API_URL : option string }.

(** [(import.meta.env?.VITE_API_URL && import.meta.env.VITE_API_URL.trim())
     || LOCAL_DEFAULT_URL] *)
Definition initialBase (env : option Env) : string :=
  match env with
  | Some {| VITE_API_URL := Some u |} =>
      if isEmpty u then LOCAL_DEFAULT_URL
      else if isEmpty (trim u) then LOCAL_DEFAULT_URL
      else trim u
  | _ => LOCAL_DEFAULT_URL
  end.

(** The initial value of [activeBaseUrl]. *)
Definition initialActiveBaseUrl (env : option Env) : string :=
  replace_final_slash (initialBase env).

(** ** [makeUrl] *)

Definition makeUrl (base path : string) : string :=
  if isEmpty path then base
  else if startsWith path "http://" || startsWith path "https://" then path
  else
    let normalizedBase := if endsWith base "/" then slice_0_minus1 base else base in
    let normalizedPath := if startsWith path "/" then path else "/" ++ path in
    normalizedBase ++ normalizedPath.

(** ** What axios hands back *)

(** The parts of an axios response the module reads. *)
Record Response : Type := mkResponse {
  status : Z;
  data : Value
}.

(** The parts of a rejection the module reads; an absent member is
    [None]. *)
Record AxiosError : Type := mkAxiosError {
  response : option Response;
  code : option string;
  message : option string
}.

Inductive AxiosResult : Type :=
| Resolved (response : Response)
| Rejected (error : AxiosError).

(** [error.response?.data] *)
Definition response_data (error : AxiosError) : Value :=
  match response error with
  | Some r => data r
  | None => VUndefined
  end.

(** [error.message] *)
Definition message_value (error : AxiosError) : Value :=
  match message error with
  | Some m => VStr m
  | None => VUndefined
  end.

(** ** [extractMessage] *)

Definition fallback : Value :=
  VStr "İstek sırasında bir sorun oluştu. Lütfen tekrar dene.".

(** The argument is [None] for a falsy [error]. *)
Definition extractMessage (error : option AxiosError) : Value :=
  match error with
  | None => fallback
  | Some error =>
      let responseMessage :=
        (response_data error)?."error"
        ||| (response_data error)?."message"
        ||| (response_data error)?."detail" in
      if truthy responseMessage then responseMessage
      else message_value error ||| fallback
  end.

(** ** Completions, the world and its trace *)

(** What a [throw] carries.  [JsError arg] is the object that
    [new Error(arg)] makes: its [message] is [String(arg)], see
    [message_of].  A property read of null or undefined, and a conversion
    to a string that fails, is a TypeError; [JSON.parse] raises a
    SyntaxError. *)
Inductive Exn : Type :=
| JsError (arg : Value)
| JsTypeError
| JsSyntaxError
| JsURIError.

(** What [throw new Error(v)] throws: the constructor converts [v] to a
    string first, and the TypeError of a failed conversion is thrown in
    the Error's place. *)
Definition new_Error (v : Value) : Exn :=
  if convertible v then JsError v else JsTypeError.

(** [e.message] of an [Error] made by [new Error(arg)]: [String(arg)],
    and the empty string of the prototype for an undefined [arg]. *)
Definition message_of (num : float -> string) (e : Exn) : option string :=
  match e with
  | JsError VUndefined => Some ""
  | JsError arg => to_string num arg
  | _ => None
  end.

Inductive Completion (A : Type) : Type :=
| Normal (a : A)
| Abrupt (e : Exn).
Arguments Normal {A} a.
Arguments Abrupt {A} e.

Module Config.
(** The object given to [axios(...)]. *)
Record t : Type := mk {
  method : string;
  url : string;
  data : Value;
  headers : list (string * string);
  timeout : Z
}.
End Config.

Inductive LogArg : Type :=
| LogVal (v : Value)
| LogExn (e : Exn).

Inductive Event : Type :=
| Sent (c : Config.t)
| ConsoleWarn (args : list LogArg)
| ConsoleError (args : list LogArg)
| Assigned (u : string).

(** [activeBaseUrl] is the module variable; [trace] lists, oldest first,
    the calls of axios, the console output and the assignments to
    [activeBaseUrl]. *)
Record World : Type := mkWorld {
  activeBaseUrl : string;
  trace : list Event
}.

Definition record (e : Event) (w : World) : World :=
  {| activeBaseUrl := activeBaseUrl w; trace := app (trace w) [e] |}.

(** [activeBaseUrl = u] *)
Definition assign (u : string) (w : World) : World :=
  {| activeBaseUrl := u; trace := app (trace w) [Assigned u] |}.

Definition Js (A : Type) : Type := World -> Completion A * World.

Definition ret {A} (a : A) : Js A := fun w => (Normal a, w).
Definition throw {A} (e : Exn) : Js A := fun w => (Abrupt e, w).

Definition bind {A B} (m : Js A) (k : A -> Js B) : Js B :=
  fun w =>
    match m w with
    | (Normal a, w') => k a w'
    | (Abrupt e, w') => (Abrupt e, w')
    end.

(** [try { m } catch (e) { h e }] *)
Definition try_catch {A} (m : Js A) (h : Exn -> Js A) : Js A :=
  fun w =>
    match m w with
    | (Normal a, w') => (Normal a, w')
    | (Abrupt e, w') => h e w'
    end.

Notation "x <- m ;; k" := (bind m (fun x => k))
  (at level 61, m at next level, right associativity).
Notation "m ;;; k" := (bind m (fun _ => k))
  (at level 61, right associativity).

Definition console_warn (args : list LogArg) : Js unit :=
  fun w => (Normal tt, record (ConsoleWarn args) w).

Definition console_error (args : list LogArg) : Js unit :=
  fun w => (Normal tt, record (ConsoleError args) w).

(** [v.k]: a TypeError on null and undefined. *)
Definition read_member (v : Value) (k : string) : Js Value :=
  if nullish v then throw JsTypeError else ret (member v k).

(** The events of a trace that are calls of axios, and those that are
    assignments to [activeBaseUrl]. *)
Definition sent (t : list Event) : list Config.t :=
  flat_map (fun e => match e with Sent c => [c] | _ => [] end) t.

Definition assignments (t : list Event) : list string :=
  flat_map (fun e => match e with Assigned u => [u] | _ => [] end) t.

(** ** [request] *)

(** [!error.response && (error.code === "ERR_NETWORK" ||
      error.message === "Network Error" ||
      /Network Error/i.test(error.message || ""))] *)
Definition isNetworkError (error : AxiosError) : bool :=
  match response error with
  | Some _ => false
  | None =>
      match code error with
      | Some c => String.eqb c "ERR_NETWORK"
      | None => false
      end
      || match message error with
         | Some m => String.eqb m "Network Error"
         | None => false
         end
      || test_Network_Error_i
           (match message error with Some m => m | None => "" end)
  end.

(** [attempt === 0 && isNetworkError && activeBaseUrl === LOCAL_DEFAULT_URL] *)
Definition canRetry (attempt : nat) (error : AxiosError) (w : World) : bool :=
  (attempt =? 0)%nat
  && isNetworkError error
  && String.eqb (activeBaseUrl w) LOCAL_DEFAULT_URL.

(** [error.response?.status === 404] *)
Definition status_is_404 (error : AxiosError) : bool :=
  match response error with
  | Some r => (status r =? 404)%Z
  | None => false
  end.

(** The configuration object of the call. *)
Definition config (method url : string) (payload : Value) : Config.t :=
  {| Config.method := method;
     Config.url := url;
     Config.data := payload;
     Config.headers := [("Content-Type", "application/json")];
     Config.timeout := 15000 |}.

(** The recursive call is made at [attempt === 0] only. *)
Definition retries_left (attempt : nat) : nat :=
  match attempt with O => 1 | S _ => 0 end.

Section Gateway.

(** The network: what axios answers to a request, given all that
    happened before. *)
Variable network : list Event -> Config.t -> AxiosResult.

(** [await axios(c)] *)
Definition axios (c : Config.t) (w : World) : AxiosResult * World :=
  (network (trace w) c, record (Sent c) w).

(** The tail of the [catch] block, after the retry has been ruled out. *)
Definition surface (method path : string) (error : AxiosError) : Js Value :=
  console_error [LogVal (VStr ("❌ API Error on " ++ path ++ ":"));
                 LogVal (response_data error ||| message_value error)] ;;;
  if String.eqb method "get" && status_is_404 error then ret VNull
  else throw (new_Error (extractMessage (Some error))).

Equations? request (method path : string) (payload : Value) (attempt : nat)
  (w : World) : Completion Value * World by wf (retries_left attempt) lt :=
request method path payload attempt w
  with axios (config method (makeUrl (activeBaseUrl w) path) payload) w := {
  | (Resolved response, w1) => (Normal (data response), w1)
  | (Rejected error, w1) with inspect (canRetry attempt error w1) := {
    | exist _ true Hretry =>
        let w2 := record (ConsoleWarn
                    [LogVal (VStr "⚠️ Local API unreachable, falling back to hosted API:");
                     LogVal (VStr REMOTE_FALLBACK_URL)]) w1 in
        request method path payload (attempt + 1) (assign REMOTE_FALLBACK_URL w2)
    | exist _ false _ => surface method path error w1 } }.
Proof.
  unfold canRetry in Hretry.
  destruct attempt; [simpl; lia | discriminate].
Qed.

(** [JSON.parse] and [encodeURIComponent] of the host, the latter after
    its argument's conversion to a string; [None] when they throw.  What
    [encodeURIComponent] throws is the TypeError of the conversion for an
    argument that does not convert, and the URIError of the encoding
    otherwise. *)
Variable JSON_parse : string -> option Value.
Variable encodeURIComponent : Value -> option string.

Definition parse (s : string) : Js Value :=
  match JSON_parse s with
  | Some v => ret v
  | None => throw JsSyntaxError
  end.

(** The callers leave [attempt] to its default [0]; [get] leaves the
    payload undefined. *)
Definition post (path : string) (payload : Value) : Js Value :=
  request "post" path payload 0.
Definition put (path : string) (payload : Value) : Js Value :=
  request "put" path payload 0.
Definition get (path : string) : Js Value :=
  request "get" path VUndefined 0.

Definition calculateNatalChart (payload : Value) : Js Value :=
  post "/natal-chart" payload.

(** A parameter default applies to an undefined argument. *)
Definition default_arg (d v : Value) : Value :=
  match v with VUndefined => d | _ => v end.

Definition buildLifeBundle (data strategy : Value) : Value :=
  let strategy := default_arg (VStr "primary") strategy in
  let story := data?."life_narrative" ||| VNull in
  let meta := data?."meta" ||| VNull in
  let legacy :=
    data?."life_legacy" ||| data?."archetype"?."life_narrative" ||| VNull in
  VObj [("story", story); ("meta", meta); ("legacy", legacy);
        ("strategy", strategy)].

Definition fallbackCard (legacyText : Value) : Value :=
  VObj [("title", VStr "Hayat Anlatısı");
        ("narrative", VObj [("main", legacyText)]);
        ("reasons", VObj [("psychology", VArr [])]);
        ("actions", VArr []);
        ("tags", VArr []);
        ("confidence_label", VStr "Dengeli")].

(** What [getInterpretation] makes of the response body [data], from
    [const bundle = buildLifeBundle(data)] to [return prepared]. *)
Definition prepared (data : Value) : Value :=
  let bundle := buildLifeBundle data VUndefined in
  let legacyText := bundle?."legacy"?."text" ||| data?."text" ||| VStr "" in
  let prepared := set_key "life_bundle" bundle (spread data) in
  VObj
    (if negb (truthy data?."cards"?."life")
     then set_key "cards"
            (VObj (set_key "life" (fallbackCard legacyText)
                     (spread (data?."cards" ||| VObj []))))
            prepared
     else prepared).

(** The [try]/[catch] around [JSON.parse] shared by the two
    interpretation calls. *)
Definition parse_or_null (s : string) : Js Value :=
  try_catch (parse s)
    (fun error =>
       console_warn [LogVal (VStr "Unable to parse chart data string:");
                     LogExn error] ;;;
       ret VNull).

Definition getInterpretation (chartData : Value) : Js Value :=
  preparedChart <-
    match chartData with
    | VStr s => parse_or_null s
    | _ => ret chartData
    end ;;
  (if negb (truthy preparedChart) || negb (typeof_object preparedChart)
   then console_warn
          [LogVal (VStr "Invalid chart data supplied to getInterpretation");
           LogVal chartData]
   else ret tt) ;;;
  data <- post "/interpretation"
            (VObj [("chart", preparedChart); ("chart_data", preparedChart)]) ;;
  ret (prepared data).

Definition getAlternateNarrative (chartData strategy : Value) : Js Value :=
  let strategy := default_arg (VStr "secondary") strategy in
  preparedChart <-
    match chartData with
    | VStr s => parse_or_null s
    | _ => ret chartData
    end ;;
  data <- post "/interpretation"
            (VObj [("chart", preparedChart); ("chart_data", preparedChart);
                   ("alt_strategy", strategy)]) ;;
  ret (buildLifeBundle data strategy).

Definition calculateSynastry (payload : Value) : Js Value :=
  post "/calculate_synastry_chart" payload.

Definition saveUserProfile (profile : Value) : Js Value :=
  post "/api/profile" profile.

Definition fetchUserProfile (email : Value) : Js Value :=
  if negb (truthy email)
  then throw (JsError (VStr "Profil için e-posta sağlanmalı."))
  else
    match encodeURIComponent email with
    | None => throw (if convertible email then JsURIError else JsTypeError)
    | Some e =>
        result <- get ("/api/profile?email=" ++ e) ;;
        if negb (truthy result) then ret VNull
        else
          match member result "profile" with
          | VUndefined => ret result
          | profile => ret profile
          end
    end.

Definition updateUserProfile (profile : Value) : Js Value :=
  put "/api/profile" profile.

Definition apology : Value := VStr "Üzgünüm, şu anda yanıt veremiyorum.".

Definition sendChatMessage (message chartData : Value) : Js Value :=
  try_catch
    (response <- post "/chat/message"
                   (VObj [("message", message); ("chart", chartData)]) ;;
     read_member response "reply")
    (fun error =>
       console_error [LogVal (VStr "Chat error:"); LogExn error] ;;;
       ret apology).

(** *** A process: the module is loaded, then its exports are called *)

Inductive ApiCall : Type :=
| CalculateNatalChart (payload : Value)
| GetInterpretation (chartData : Value)
| GetAlternateNarrative (chartData strategy : Value)
| CalculateSynastry (payload : Value)
| SaveUserProfile (profile : Value)
| FetchUserProfile (email : Value)
| UpdateUserProfile (profile : Value)
| SendChatMessage (message chartData : Value).

Definition run_call (c : ApiCall) : Js Value :=
  match c with
  | CalculateNatalChart payload => calculateNatalChart payload
  | GetInterpretation chartData => getInterpretation chartData
  | GetAlternateNarrative chartData strategy =>
      getAlternateNarrative chartData strategy
  | CalculateSynastry payload => calculateSynastry payload
  | SaveUserProfile profile => saveUserProfile profile
  | FetchUserProfile email => fetchUserProfile email
  | UpdateUserProfile profile => updateUserProfile profile
  | SendChatMessage message chartData => sendChatMessage message chartData
  end.

(** The world after the calls, made one after the other; what a call
    returns or throws goes to its caller and is dropped here. *)
Fixpoint run_calls (cs : list ApiCall) (w : World) : World :=
  match cs with
  | [] => w
  | c :: rest => run_calls rest (snd (run_call c w))
  end.

End Gateway.

(** The world right after the module has been loaded. *)
Definition initial_world (env : option Env) : World :=
  {| activeBaseUrl := initialActiveBaseUrl env; trace := [] |}.

(** ** The data the life-narrative card shows

    The constants that [LifeNarrativeCard] derives from its [story] and
    [meta] props before it renders.  [sanitize] comes from
    [lib/format.js] and is a parameter here. *)

Section LifeNarrativeCard.

Variable sanitize : Value -> Value.

(** An element of [reasons] and [actions]. *)
Record Keyed : Type := mkKeyed { key : string; text : Value }.

(** [items.map((item, index) => ({ key: `${label}-${index}`,
      text: sanitize(item) }))], from [index] on. *)
Fixpoint keyed (label : string) (index : nat) (items : list Value)
  : list Keyed :=
  match items with
  | [] => []
  | item :: rest =>
      {| key := label ++ "-" ++ index_key index; text := sanitize item |}
      :: keyed label (S index) rest
  end.

(** [Array.isArray(v) ? v.map(...).filter((item) => item.text) : []] *)
Definition keyed_texts (label : string) (v : Value) : list Keyed :=
  match v with
  | VArr items => filter (fun item => truthy (text item)) (keyed label 0 items)
  | _ => []
  end.

Definition reasons (story : Value) : list Keyed :=
  keyed_texts "reason" story?."reasons".

Definition actions (story : Value) : list Keyed :=
  keyed_texts "action" story?."actions".

(** [Array.isArray(v?.themes)
      ? v.themes.map((item) => sanitize(item)).filter(Boolean) : []],
    for [storyThemes] and [metaThemes]. *)
Definition themes (v : Value) : list Value :=
  match v?."themes" with
  | VArr items => filter truthy (map sanitize items)
  | _ => []
  end.

Definition headline (story : Value) : Value :=
  sanitize story?."headline" ||| VStr "İç Sesinin İzinde".

Definition summary (story : Value) : Value :=
  sanitize story?."summary" ||| VStr "İçgörü henüz hazır değil.".

Definition axis (meta : Value) : Value :=
  sanitize meta?."axis" ||| VStr "—".

Definition focus (meta : Value) : Value :=
  sanitize meta?."focus" ||| VStr "—".

(** [Array.isArray(meta?.derived_from) ? meta.derived_from : []] *)
Definition derived (meta : Value) : list Value :=
  match meta?."derived_from" with
  | VArr items => items
  | _ => []
  end.

(** [derived.slice(0, 8)], the pairs that are listed. *)
Definition derived_shown (meta : Value) : list Value :=
  firstn 8 (derived meta).



End LifeNarrativeCard.


(** A stand-in for [sanitize] in concrete runs: strings pass, the rest
    becomes the empty string. *)
Definition strings_only (v : Value) : Value :=
  match v with VStr s => VStr s | _ => VStr "" end.

(** ** Vocabulary of the statements *)

(** The events of the fallback branch between the two attempts. *)
Definition fallback_warning : Event :=
  ConsoleWarn
    [LogVal (VStr "⚠️ Local API unreachable, falling back to hosted API:");
     LogVal (VStr REMOTE_FALLBACK_URL)].

Definition switched (w : World) : World :=
  assign REMOTE_FALLBACK_URL (record fallback_warning w).

(** What the [catch] block leaves behind once the retry is ruled out. *)
Definition error_log (path : string) (error : AxiosError) : Event :=
  ConsoleError [LogVal (VStr ("❌ API Error on " ++ path ++ ":"));
                LogVal (response_data error ||| message_value error)].

(** [path.startsWith("http://") || path.startsWith("https://")] *)
Definition is_absolute (path : string) : bool :=
  startsWith path "http://" || startsWith path "https://".

(** [path.startsWith("/") ? path : `/${path}`] *)
Definition with_leading_slash (path : string) : string :=
  if startsWith path "/" then path else "/" ++ path.

(** How an attempt that is not retried settles. *)
Definition settle (method path : string) (r : AxiosResult) (w : World)
  : Completion Value * World :=
  match r with
  | Resolved response => (Normal (data response), w)
  | Rejected error => surface method path error w
  end.

(** Does the body carry the field at all, whatever it holds? *)
Definition present (body : Value) (k : string) : bool :=
  match body with
  | VObj props => has_key k props
  | _ => false
  end.

(** The outcome C1 describes for a call made in world [w]: the origin is
    the fallback afterwards, it was assigned once, and axios was called
    twice, with the same method and payload, first at the URL built from
    the origin of [w], then at the one built from the fallback. *)
Definition falls_back (network : list Event -> Config.t -> AxiosResult)
  (method path : string) (payload : Value) (w : World) : Prop :=
  let w' := snd (request network method path payload 0 w) in
  activeBaseUrl w' = REMOTE_FALLBACK_URL
  /\ exists t,
       trace w' = (trace w ++ t)%list
       /\ assignments t = [REMOTE_FALLBACK_URL]
       /\ sent t = [config method (makeUrl (activeBaseUrl w) path) payload;
                    config method (makeUrl REMOTE_FALLBACK_URL path) payload].

(** How a later world of the process relates to an earlier one: its
    trace extends the earlier trace, and either nothing was assigned in
    between and the origin is the same, or the origin was the local
    default, was assigned once, to the fallback, and is the fallback. *)
Definition evolves (w w' : World) : Prop :=
  exists t,
    trace w' = (trace w ++ t)%list
    /\ ((assignments t = [] /\ activeBaseUrl w' = activeBaseUrl w)
        \/ (assignments t = [REMOTE_FALLBACK_URL]
            /\ activeBaseUrl w = LOCAL_DEFAULT_URL
            /\ activeBaseUrl w' = REMOTE_FALLBACK_URL)).

Definition preserves {A} (m : Js A) : Prop :=
  forall w, evolves w (snd (m w)).

(** [e] was made by [new Error(...)]. *)
Definition is_Error (e : Exn) : Prop := exists v, e = JsError v.

(** Every exception [m] can throw satisfies [P]. *)
Definition throws_only {A} (P : Exn -> Prop) (m : Js A) : Prop :=
  forall w e, fst (m w) = Abrupt e -> P e.

(** [m] calls axios never and leaves the origin alone: all it may do to
    the world is write to the console. *)
Definition quiet {A} (m : Js A) : Prop :=
  forall w, exists t,
    snd (m w) = {| activeBaseUrl := activeBaseUrl w;
                   trace := (trace w ++ t)%list |}
    /\ sent t = [] /\ assignments t = [].

(** [url] is [origin], less one final slash, followed by a path that
    starts with a slash. *)
Definition under_origin (origin url : string) : Prop :=
  exists path,
    startsWith path "/" = true /\ url = replace_final_slash origin ++ path.

(** [m] calls axios at most twice, and only at URLs under the origin it
    started with or under the fallback. *)
Definition stays_home {A} (m : Js A) : Prop :=
  forall w, exists t,
    trace (snd (m w)) = (trace w ++ t)%list
    /\ (length (sent t) <= 2)%nat
    /\ Forall (fun c => under_origin (activeBaseUrl w) (Config.url c)
                        \/ under_origin REMOTE_FALLBACK_URL (Config.url c))
         (sent t).

(** Between [w] and [w'] the last call of axios was made with [c], and
    [r] is what the network answered to it, given all that had happened
    until then. *)
Definition last_attempt (network : list Event -> Config.t -> AxiosResult)
  (w w' : World) (c : Config.t) (r : AxiosResult) : Prop :=
  exists before after,
    trace w' = (trace w ++ before ++ Sent c :: after)%list
    /\ network (trace w ++ before)%list c = r
    /\ sent after = [].

(** *** Scenarios for the concrete runs *)

(** The rejection axios produces when no server listens. *)
Definition unreachable : AxiosError :=
  {| response := None;
     code := Some "ERR_NETWORK";
     message := Some "Network Error" |}.

(** A rejection that carries an HTTP response. *)
Definition http_error (st : Z) (body : Value) : AxiosError :=
  {| response := Some {| status := st; data := body |};
     code := Some "ERR_BAD_REQUEST";
     message := Some "Request failed" |}.

(** No origin answers. *)
Definition net_down : list Event -> Config.t -> AxiosResult :=
  fun _ _ => Rejected unreachable.

(** Every request is answered with the same response. *)
Definition net_replies (st : Z) (body : Value)
  : list Event -> Config.t -> AxiosResult :=
  fun _ _ => Resolved {| status := st; data := body |}.

(** Every request is rejected with the same HTTP error. *)
Definition net_rejects (st : Z) (body : Value)
  : list Event -> Config.t -> AxiosResult :=
  fun _ _ => Rejected (http_error st body).

(** Only the fallback origin answers. *)
Definition net_local_down (body : Value)
  : list Event -> Config.t -> AxiosResult :=
  fun _ c =>
    if startsWith (Config.url c) REMOTE_FALLBACK_URL
    then Resolved {| status := 200; data := body |}
    else Rejected unreachable.

(** A parser that knows the literal [null] and an encoder that passes
    strings through: stand-ins for the host functions in concrete runs. *)
Definition parse_null_only (s : string) : option Value :=
  if String.eqb s "null" then Some VNull else None.

Definition encode_plain (v : Value) : option string :=
  match v with VStr s => Some s | _ => None end.

(** The module loaded without an override, and with one. *)
Definition w_default : World := initial_world None.
Definition w_override : World :=
  initial_world (Some {| VITE_API_URL := Some "https://api.example.com/" |}).


(** * Properties *)

(** ** The fuel of [trimStart] *)

Lemma substring_length_le n m s :
  (String.length (String.substring n m s) <= m)%nat.
Proof.
  revert n m. induction s as [| c s IH]; intros [| n] [| m]; cbn; try lia.
  - specialize (IH 0%nat m). lia.
  - apply IH.
  - apply IH.
Qed.

Lemma prefix_length t s :
  String.prefix t s = true -> (String.length t <= String.length s)%nat.
Proof.
  revert s. induction t as [| a t IH]; intros [| b s]; cbn; intros H;
    try discriminate H; try lia.
  destruct (ascii_dec a b); [| discriminate H].
  apply IH in H. lia.
Qed.

Lemma skip_white_shorter s r :
  skip_white s = Some r -> (String.length r < String.length s)%nat.
Proof.
  unfold skip_white.
  destruct (find _ white_space) as [t |] eqn:F; [| discriminate].
  intros [= <-]. apply find_some in F. destruct F as [Hin Hp].
  assert (L : (1 <= String.length t)%nat).
  { assert (A : forallb (fun t => (1 <=? String.length t)%nat) white_space
                = true) by reflexivity.
    rewrite forallb_forall in A. apply Nat.leb_le. apply A. exact Hin. }
  pose proof (prefix_length _ _ Hp).
  pose proof (substring_length_le (String.length t)
                (String.length s - String.length t) s).
  lia.
Qed.

(** What [trimStart] returns starts with no white space: the fuel never
    runs out. *)
Lemma trimStart_done s : skip_white (trimStart s) = None.
Proof.
  unfold trimStart.
  assert (G : forall fuel u, (String.length u <= fuel)%nat ->
                             skip_white (trimStart_fuel fuel u) = None).
  { induction fuel as [| fuel IH]; intros u Hu; cbn.
    - destruct u; [reflexivity | cbn in Hu; lia].
    - destruct (skip_white u) as [r |] eqn:E; [| exact E].
      apply IH. apply skip_white_shorter in E. lia. }
  apply G. lia.
Qed.

(** ** Unfolding [request] *)

Section RequestFacts.

Variable network : list Event -> Config.t -> AxiosResult.

Lemma request_step method path payload attempt w :
  request network method path payload attempt w =
  let c := config method (makeUrl (activeBaseUrl w) path) payload in
  let w1 := record (Sent c) w in
  match network (trace w) c with
  | Resolved response => (Normal (data response), w1)
  | Rejected error =>
      if canRetry attempt error w1
      then request network method path payload (attempt + 1) (switched w1)
      else surface method path error w1
  end.
Proof.
  rewrite request_equation_1. unfold axios. cbn zeta.
  destruct (network (trace w) _) as [r | e]; cbn.
  - reflexivity.
  - destruct (canRetry attempt e _) eqn:E; reflexivity.
Qed.

Lemma surface_eq method path error w :
  surface method path error w =
  (if String.eqb method "get" && status_is_404 error then Normal VNull
   else Abrupt (new_Error (extractMessage (Some error))),
   record (error_log path error) w).
Proof.
  unfold surface, bind, console_error, error_log.
  destruct (String.eqb method "get" && status_is_404 error); reflexivity.
Qed.

Lemma canRetry_retry attempt error w :
  canRetry (attempt + 1) error w = false.
Proof. unfold canRetry. rewrite Nat.add_1_r. reflexivity. Qed.

Lemma canRetry_true attempt error w :
  canRetry attempt error w = true <->
  attempt = 0%nat /\ isNetworkError error = true
  /\ activeBaseUrl w = LOCAL_DEFAULT_URL.
Proof.
  unfold canRetry.
  rewrite !andb_true_iff, Nat.eqb_eq, String.eqb_eq. tauto.
Qed.

(** [request] without the recursion: one attempt, and a second one on
    the switched world when [canRetry] holds. *)
Lemma request_flat method path payload attempt w :
  request network method path payload attempt w =
  let c1 := config method (makeUrl (activeBaseUrl w) path) payload in
  let w1 := record (Sent c1) w in
  match network (trace w) c1 with
  | Rejected error =>
      if canRetry attempt error w1 then
        let c2 := config method (makeUrl REMOTE_FALLBACK_URL path) payload in
        settle method path (network (trace (switched w1)) c2)
               (record (Sent c2) (switched w1))
      else surface method path error w1
  | r => settle method path r w1
  end.
Proof.
  rewrite request_step. cbn zeta.
  destruct (network (trace w) _) as [r | e]; [reflexivity |].
  destruct (canRetry attempt e _); [| reflexivity].
  rewrite request_step. cbn zeta.
  change (activeBaseUrl (switched _)) with REMOTE_FALLBACK_URL.
  destruct (network _ _) as [r2 | e2]; [reflexivity |].
  rewrite canRetry_retry. reflexivity.
Qed.

End RequestFacts.

(** ** URL construction *)

Lemma absolute_not_empty path : is_absolute path = true -> isEmpty path = false.
Proof. destruct path; [discriminate | reflexivity]. Qed.

Lemma isEmpty_false path : path <> "" -> isEmpty path = false.
Proof. destruct path; [congruence | reflexivity]. Qed.

Lemma makeUrl_absolute base path :
  is_absolute path = true -> makeUrl base path = path.
Proof.
  intros H. unfold makeUrl. rewrite (absolute_not_empty _ H).
  unfold is_absolute in H. rewrite H. reflexivity.
Qed.

Lemma makeUrl_relative base path :
  path <> "" -> is_absolute path = false ->
  makeUrl base path = replace_final_slash base ++ with_leading_slash path.
Proof.
  intros Hne H. unfold makeUrl. rewrite (isEmpty_false _ Hne).
  unfold is_absolute in H. rewrite H. reflexivity.
Qed.

(** The first thing [request] does is to hand axios the URL that
    [makeUrl] builds from the active origin. *)
Lemma request_first_sent network method path payload attempt w :
  exists t,
    trace (snd (request network method path payload attempt w)) =
    (trace w
     ++ Sent (config method (makeUrl (activeBaseUrl w) path) payload) :: t)%list.
Proof.
  rewrite request_flat. cbn zeta.
  destruct (network (trace w) _) as [r | e].
  - exists []. reflexivity.
  - destruct (canRetry attempt e _); [destruct (network _ _) as [r2 | e2] |];
      unfold settle; rewrite ?surface_eq; cbn; rewrite <- ?app_assoc;
      eexists; reflexivity.
Qed.

(** C10, as the claim has it: every path that is not absolute, the empty
    one included, would give the origin, a slash and the path.  The empty
    path gives the origin alone. *)
Lemma makeUrl_empty_path_counterexample :
  ~ (forall base path,
        is_absolute path = false ->
        makeUrl base path = replace_final_slash base ++ with_leading_slash path).
Proof.
  intros H. specialize (H LOCAL_DEFAULT_URL "" eq_refl). discriminate H.
Qed.

(** C10, amended: an absolute URL given as the path is the request URL as
    it stands; a relative path that is not empty gives the active origin
    without one final slash, followed by the path, which gets a slash in
    front unless it starts with one; the empty path gives the origin
    unchanged.  [request] sends its first attempt to that URL. *)
Theorem makeUrl_by_path base path :
  (is_absolute path = true -> makeUrl base path = path)
  /\ (path <> "" -> is_absolute path = false ->
      makeUrl base path = replace_final_slash base ++ with_leading_slash path)
  /\ makeUrl base "" = base
  /\ (forall network method payload attempt w,
        activeBaseUrl w = base ->
        exists t,
          trace (snd (request network method path payload attempt w)) =
          (trace w ++ Sent (config method (makeUrl base path) payload) :: t)%list).
Proof.
  split; [apply makeUrl_absolute |].
  split; [apply makeUrl_relative |].
  split; [reflexivity |].
  intros network method payload attempt w <-. apply request_first_sent.
Qed.

Lemma makeUrl_by_path_witness :
  makeUrl "https://example.org/" "https://astrolog-ai.onrender.com/chat"
  = "https://astrolog-ai.onrender.com/chat"
  /\ makeUrl "http://localhost:5000/" "natal-chart"
     = "http://localhost:5000/natal-chart".
Proof.
  split.
  - exact (proj1 (makeUrl_by_path "https://example.org/"
                    "https://astrolog-ai.onrender.com/chat") eq_refl).
  - exact (proj1 (proj2 (makeUrl_by_path "http://localhost:5000/" "natal-chart"))
             ltac:(discriminate) eq_refl).
Defined.

(** ** The fallback *)

Lemma assignments_app t1 t2 :
  assignments (t1 ++ t2) = (assignments t1 ++ assignments t2)%list.
Proof. apply flat_map_app. Qed.

Lemma sent_app t1 t2 : sent (t1 ++ t2) = (sent t1 ++ sent t2)%list.
Proof. apply flat_map_app. Qed.

Lemma network_error_no_response error :
  isNetworkError error = true -> response error = None.
Proof. unfold isNetworkError. destruct (response error); [discriminate | reflexivity]. Qed.

(** The message chosen for a network error is a string: the failure's
    own message or the fallback. *)
Lemma network_error_new_Error error :
  isNetworkError error = true ->
  new_Error (extractMessage (Some error))
  = JsError (extractMessage (Some error)).
Proof.
  intros H. apply network_error_no_response in H.
  unfold extractMessage, response_data, message_value. rewrite H.
  destruct (message error) as [[| c m] |]; reflexivity.
Qed.

Lemma network_error_not_404 error :
  isNetworkError error = true -> status_is_404 error = false.
Proof.
  intros H. unfold status_is_404. rewrite (network_error_no_response _ H).
  reflexivity.
Qed.

Lemma response_no_retry attempt error w r :
  response error = Some r -> canRetry attempt error w = false.
Proof.
  intros H. unfold canRetry, isNetworkError. rewrite H.
  rewrite andb_false_r. reflexivity.
Qed.

Lemma canRetry_off_default attempt error w :
  activeBaseUrl w <> LOCAL_DEFAULT_URL -> canRetry attempt error w = false.
Proof.
  intros H. unfold canRetry.
  apply String.eqb_neq in H. rewrite H. apply andb_false_r.
Qed.

Lemma local_is_not_remote : LOCAL_DEFAULT_URL <> REMOTE_FALLBACK_URL.
Proof. discriminate. Qed.

(** An attempt that is not retried adds at most the error log. *)
Lemma settle_effect method path r w :
  exists result ev,
    settle method path r w
    = (result, {| activeBaseUrl := activeBaseUrl w;
                  trace := (trace w ++ ev)%list |})
    /\ assignments ev = [] /\ sent ev = [].
Proof.
  destruct r as [r | e]; unfold settle; rewrite ?surface_eq.
  - exists (Normal (data r)), []. rewrite app_nil_r. destruct w. repeat split.
  - eexists _, [error_log path e]. repeat split.
Qed.

(** What one call of [request] does to the world: it adds events, and
    either it calls axios once and leaves the origin alone, or it started
    at the local default, saw a network error, assigned the fallback once
    and called axios twice. *)
Lemma request_effect network method path payload attempt w :
  let w' := snd (request network method path payload attempt w) in
  let c1 := config method (makeUrl (activeBaseUrl w) path) payload in
  let c2 := config method (makeUrl REMOTE_FALLBACK_URL path) payload in
  exists t,
    trace w' = (trace w ++ t)%list
    /\ ((assignments t = [] /\ activeBaseUrl w' = activeBaseUrl w
         /\ sent t = [c1])
        \/ (attempt = 0%nat /\ activeBaseUrl w = LOCAL_DEFAULT_URL
            /\ (exists error, network (trace w) c1 = Rejected error
                              /\ isNetworkError error = true)
            /\ assignments t = [REMOTE_FALLBACK_URL]
            /\ activeBaseUrl w' = REMOTE_FALLBACK_URL
            /\ sent t = [c1; c2])).
Proof.
  cbn zeta. rewrite request_flat. cbn zeta.
  destruct (network (trace w) _) as [r | e] eqn:N.
  - eexists. split; [reflexivity |]. left. repeat split.
  - destruct (canRetry attempt e _) eqn:R.
    + apply canRetry_true in R. destruct R as (Ha & He & Hw).
      match goal with
      | |- context [settle ?m ?p ?r ?v] =>
          destruct (settle_effect m p r v) as (result & ev & E & Ea & Es)
      end.
      rewrite E. cbn [snd trace activeBaseUrl switched assign record].
      exists ([Sent (config method (makeUrl (activeBaseUrl w) path) payload);
               fallback_warning; Assigned REMOTE_FALLBACK_URL;
               Sent (config method (makeUrl REMOTE_FALLBACK_URL path) payload)]
              ++ ev)%list.
      split; [rewrite <- !app_assoc; reflexivity |]. right.
      split; [exact Ha |]. split; [exact Hw |].
      split; [exists e; split; [reflexivity | exact He] |].
      split; [rewrite assignments_app, Ea; reflexivity |].
      split; [reflexivity |].
      rewrite sent_app, Es. reflexivity.
    + rewrite surface_eq. cbn [snd].
      exists [Sent (config method (makeUrl (activeBaseUrl w) path) payload);
              error_log path e].
      split; [cbn; rewrite <- app_assoc; reflexivity |].
      left. repeat split.
Qed.

(** C1, as the claim has it for a primary origin that the configuration
    set: the module is loaded with an override, the first attempt of a
    call meets a network error, and there is neither a switch nor a
    second attempt. *)
Lemma fallback_with_override_counterexample :
  net_down (trace w_override)
    (config "post" (makeUrl (activeBaseUrl w_override) "/natal-chart") VNull)
  = Rejected unreachable
  /\ isNetworkError unreachable = true
  /\ ~ falls_back net_down "post" "/natal-chart" VNull w_override.
Proof.
  split; [reflexivity |]. split; [reflexivity |].
  intros [H _]. vm_compute in H. discriminate H.
Qed.

(** C1, amended: when a call of [request] starts while the active origin
    is the hardcoded local default ["http://localhost:5000"] and its first
    attempt fails with a network-level failure, the active origin is
    assigned the fallback exactly once and the same request (same method,
    path and payload) is sent exactly once more, at the URL built from the
    fallback origin. *)
Theorem request_falls_back_from_local_default
  network method path payload w error :
  activeBaseUrl w = LOCAL_DEFAULT_URL ->
  network (trace w) (config method (makeUrl LOCAL_DEFAULT_URL path) payload)
  = Rejected error ->
  isNetworkError error = true ->
  falls_back network method path payload w.
Proof.
  intros Hw N He. unfold falls_back.
  rewrite request_flat. cbn zeta. rewrite Hw, N.
  assert (R : canRetry 0 error
                (record (Sent (config method
                                 (makeUrl LOCAL_DEFAULT_URL path) payload)) w)
              = true).
  { apply canRetry_true. repeat split; assumption. }
  rewrite R.
  match goal with
  | |- context [settle ?m ?p ?r ?v] =>
      destruct (settle_effect m p r v) as (result & ev & E & Ea & Es)
  end.
  rewrite E. cbn [snd trace activeBaseUrl switched assign record].
  split; [reflexivity |].
  exists ([Sent (config method (makeUrl LOCAL_DEFAULT_URL path) payload);
           fallback_warning; Assigned REMOTE_FALLBACK_URL;
           Sent (config method (makeUrl REMOTE_FALLBACK_URL path) payload)]
          ++ ev)%list.
  split; [rewrite <- !app_assoc; reflexivity |].
  split; [rewrite assignments_app, Ea; reflexivity |].
  rewrite sent_app, Es. reflexivity.
Qed.

Lemma request_falls_back_from_local_default_witness :
  falls_back (net_local_down (VObj [])) "post" "/natal-chart" VNull w_default.
Proof.
  exact (request_falls_back_from_local_default
           (net_local_down (VObj [])) "post" "/natal-chart" VNull w_default
           unreachable eq_refl eq_refl eq_refl).
Defined.

(** C3: off the hardcoded local default, a network-level failure of the
    first attempt is thrown to the caller after that single attempt, with
    the origin left as it was; and whenever a call assigns or changes the
    active origin, the origin it started from was the local default. *)
Theorem no_fallback_off_local_default network method path payload w :
  (forall error,
      activeBaseUrl w <> LOCAL_DEFAULT_URL ->
      network (trace w)
        (config method (makeUrl (activeBaseUrl w) path) payload)
      = Rejected error ->
      isNetworkError error = true ->
      request network method path payload 0 w =
      (Abrupt (JsError (extractMessage (Some error))),
       record (error_log path error)
         (record (Sent (config method (makeUrl (activeBaseUrl w) path) payload))
            w)))
  /\ (forall attempt,
         let w' := snd (request network method path payload attempt w) in
         assignments (trace w') <> assignments (trace w)
         \/ activeBaseUrl w' <> activeBaseUrl w ->
         activeBaseUrl w = LOCAL_DEFAULT_URL).
Proof.
  split.
  - intros error Hw N He. rewrite request_flat. cbn zeta. rewrite N.
    rewrite canRetry_off_default by exact Hw.
    rewrite surface_eq, (network_error_not_404 _ He), andb_false_r.
    rewrite (network_error_new_Error _ He). reflexivity.
  - intros attempt w' H.
    destruct (request_effect network method path payload attempt w)
      as (t & Ht & [(Ha & Hb & _) | (_ & Hw & _)]); [| exact Hw].
    exfalso. fold w' in Ht, Hb. destruct H as [H | H].
    + apply H. rewrite Ht, assignments_app, Ha. apply app_nil_r.
    + apply H. exact Hb.
Qed.

Lemma no_fallback_off_local_default_witness :
  request net_down "post" "/natal-chart" VNull 0 w_override =
  (Abrupt (JsError (VStr "Network Error")),
   {| activeBaseUrl := "https://api.example.com";
      trace := [Sent (config "post" "https://api.example.com/natal-chart" VNull);
                error_log "/natal-chart" unreachable] |}).
Proof.
  exact (proj1 (no_fallback_off_local_default
                  net_down "post" "/natal-chart" VNull w_override)
           unreachable ltac:(discriminate) eq_refl eq_refl).
Defined.

(** C6: a call makes one or two attempts, never more; and when the retry
    against the fallback fails with a network-level failure too, that
    failure is thrown to the caller right after the second attempt. *)
Theorem second_network_failure_surfaces network method path payload w :
  let c1 := config method (makeUrl (activeBaseUrl w) path) payload in
  let c2 := config method (makeUrl REMOTE_FALLBACK_URL path) payload in
  let w2 := switched (record (Sent c1) w) in
  (forall attempt,
      exists t,
        trace (snd (request network method path payload attempt w))
        = (trace w ++ t)%list
        /\ (1 <= length (sent t) <= 2)%nat)
  /\ (forall e1 e2,
         activeBaseUrl w = LOCAL_DEFAULT_URL ->
         network (trace w) c1 = Rejected e1 -> isNetworkError e1 = true ->
         network (trace w2) c2 = Rejected e2 -> isNetworkError e2 = true ->
         request network method path payload 0 w =
         (Abrupt (JsError (extractMessage (Some e2))),
          record (error_log path e2) (record (Sent c2) w2))).
Proof.
  cbn zeta. split.
  - intros attempt.
    destruct (request_effect network method path payload attempt w)
      as (t & Ht & [(_ & _ & Hs) | (_ & _ & _ & _ & _ & Hs)]);
      exists t; (split; [exact Ht | rewrite Hs; cbn; lia]).
  - intros e1 e2 Hw N1 He1 N2 He2.
    rewrite request_flat. cbn zeta. rewrite N1.
    assert (R : canRetry 0 e1
                  (record (Sent (config method
                                   (makeUrl (activeBaseUrl w) path) payload)) w)
                = true).
    { apply canRetry_true. repeat split; assumption. }
    rewrite R, N2. unfold settle.
    rewrite surface_eq, (network_error_not_404 _ He2), andb_false_r.
    rewrite (network_error_new_Error _ He2). reflexivity.
Qed.

Lemma second_network_failure_surfaces_witness :
  fst (request net_down "get" "/api/profile" VUndefined 0 w_default)
  = Abrupt (JsError (VStr "Network Error"))
  /\ sent (trace (snd (request net_down "get" "/api/profile" VUndefined 0
                        w_default)))
     = [config "get" "http://localhost:5000/api/profile" VUndefined;
        config "get" "https://astrolog-ai.onrender.com/api/profile" VUndefined].
Proof.
  rewrite (proj2 (second_network_failure_surfaces
                    net_down "get" "/api/profile" VUndefined w_default)
             unreachable unreachable eq_refl eq_refl eq_refl eq_refl eq_refl).
  split; reflexivity.
Defined.

(** ** Not found, and the message of an error *)

(** C4: when the attempt of a call is rejected with an HTTP response of
    status 404, a call with method ["get"] returns null and throws
    nothing, and a call with method ["post"] or ["put"] throws what
    [new Error(extractMessage(error))] throws. *)
Theorem not_found_by_method
  network method path payload attempt w error r :
  network (trace w) (config method (makeUrl (activeBaseUrl w) path) payload)
  = Rejected error ->
  response error = Some r ->
  status r = 404%Z ->
  (method = "get" ->
   fst (request network method path payload attempt w) = Normal VNull)
  /\ (method = "post" \/ method = "put" ->
      fst (request network method path payload attempt w)
      = Abrupt (new_Error (extractMessage (Some error)))).
Proof.
  intros N Hr Hs.
  assert (E : request network method path payload attempt w
              = surface method path error
                  (record (Sent (config method
                                   (makeUrl (activeBaseUrl w) path) payload)) w)).
  { rewrite request_flat. cbn zeta. rewrite N.
    rewrite (response_no_retry _ _ _ _ Hr). reflexivity. }
  rewrite E, surface_eq. cbn [fst].
  assert (H404 : status_is_404 error = true).
  { unfold status_is_404. rewrite Hr, Hs. reflexivity. }
  rewrite H404. split.
  - intros ->. reflexivity.
  - intros [-> | ->]; reflexivity.
Qed.

Lemma not_found_by_method_witness :
  fst (request (net_rejects 404 VNull) "get" "/api/profile?email=a%40b.c"
         VUndefined 0 w_default) = Normal VNull
  /\ fst (request (net_rejects 404 (VObj [("error", VStr "Profil yok")]))
            "put" "/api/profile" VNull 0 w_default)
     = Abrupt (JsError (VStr "Profil yok")).
Proof.
  split.
  - exact (proj1 (not_found_by_method (net_rejects 404 VNull)
                    "get" "/api/profile?email=a%40b.c" VUndefined 0 w_default
                    (http_error 404 VNull) _ eq_refl eq_refl eq_refl) eq_refl).
  - exact (proj2 (not_found_by_method
                    (net_rejects 404 (VObj [("error", VStr "Profil yok")]))
                    "put" "/api/profile" VNull 0 w_default
                    (http_error 404 (VObj [("error", VStr "Profil yok")])) _
                    eq_refl eq_refl eq_refl) (or_intror eq_refl)).
Defined.

(** *** Conversions that throw *)

Lemma Value_arr_ind (P : Value -> Prop) :
  (forall v, (forall items, v <> VArr items) -> P v) ->
  (forall items, Forall P items -> P (VArr items)) ->
  forall v, P v.
Proof.
  intros Hbase Harr. fix IH 1. intros v.
  destruct v as [| | b | n | s | items | props];
    try (apply Hbase; intros items0; discriminate).
  apply Harr. induction items as [| x rest IHrest]; constructor.
  - apply IH.
  - exact IHrest.
Qed.

Lemma join_options_some parts :
  match join_options parts with Some _ => true | None => false end
  = forallb (fun part => match part with Some _ => true | None => false end)
      parts.
Proof.
  induction parts as [| [a |] rest IH]; cbn [join_options forallb];
    try reflexivity.
  destruct rest as [| part rest']; [reflexivity |].
  rewrite <- IH. destruct (join_options (part :: rest')); reflexivity.
Qed.

(** [convertible] says whether [to_string] returns, however numbers are
    written. *)
Lemma to_string_convertible num v :
  convertible v = match to_string num v with Some _ => true | None => false end.
Proof.
  induction v as [v Hv | items IH] using Value_arr_ind.
  - destruct v as [| | [] | n | s | items | props]; try reflexivity.
    + exfalso. eapply Hv. reflexivity.
    + cbn. destruct (has_key "toString" props); reflexivity.
  - cbn [convertible to_string]. rewrite join_options_some.
    induction IH as [| x rest Hx _ IHrest]; [reflexivity |].
    cbn [forallb map]. rewrite IHrest, Hx.
    destruct (nullish x); reflexivity.
Qed.

(** [extractMessage] always finds something to say. *)
Lemma extractMessage_truthy error : truthy (extractMessage error) = true.
Proof.
  destruct error as [error |]; [| reflexivity].
  unfold extractMessage.
  destruct (truthy ((response_data error)?."error"
                    ||| (response_data error)?."message"
                    ||| (response_data error)?."detail")) eqn:T;
    [exact T |].
  unfold js_or at 1. destruct (truthy (message_value error)) eqn:M;
    [exact M | reflexivity].
Qed.

(** How a call of [request] ends: by the answer to its last attempt. *)
Lemma request_outcome network method path payload attempt w :
  exists c r,
    last_attempt network w
      (snd (request network method path payload attempt w)) c r
    /\ (c = config method (makeUrl (activeBaseUrl w) path) payload
        \/ c = config method (makeUrl REMOTE_FALLBACK_URL path) payload)
    /\ fst (request network method path payload attempt w)
       = match r with
         | Resolved response => Normal (data response)
         | Rejected error =>
             if String.eqb method "get" && status_is_404 error
             then Normal VNull
             else Abrupt (new_Error (extractMessage (Some error)))
         end.
Proof.
  rewrite request_flat. cbn zeta. unfold last_attempt.
  destruct (network (trace w) _) as [r | e] eqn:N.
  - eexists _, (Resolved r). split; [| split; [left; reflexivity |]].
    + exists [], []. rewrite app_nil_r. repeat split. exact N.
    + reflexivity.
  - destruct (canRetry attempt e _).
    + unfold switched, assign, record. cbn [trace activeBaseUrl].
      rewrite <- !app_assoc. cbn [app].
      destruct (network (trace w ++ _)%list _) as [r2 | e2] eqn:N2.
      * eexists _, (Resolved r2).
        split; [| split; [right; reflexivity | reflexivity]].
        exists [Sent (config method (makeUrl (activeBaseUrl w) path) payload);
                fallback_warning; Assigned REMOTE_FALLBACK_URL], [].
        cbn [settle snd trace app].
        split; [rewrite <- ?app_assoc; reflexivity |].
        split; [exact N2 | reflexivity].
      * eexists _, (Rejected e2).
        split; [| split; [right; reflexivity |]].
        -- exists [Sent (config method (makeUrl (activeBaseUrl w) path) payload);
                   fallback_warning; Assigned REMOTE_FALLBACK_URL],
             [error_log path e2].
           unfold settle. rewrite surface_eq. cbn [snd trace record app].
           split; [rewrite <- ?app_assoc; reflexivity |].
           split; [exact N2 | reflexivity].
        -- unfold settle. rewrite surface_eq. reflexivity.
    + eexists _, (Rejected e). split; [| split; [left; reflexivity |]].
      * exists [], [error_log path e]. rewrite surface_eq, app_nil_r.
        cbn [snd trace record]. rewrite <- !app_assoc. cbn [app].
        repeat split. exact N.
      * rewrite surface_eq. reflexivity.
Qed.

(** C5, as the claim has it: a body whose [error] field is present would
    supply the message, and every error that surfaces would carry a
    message chosen by the precedence.  In the first run the field is
    present and empty, and the message comes from the [message] field;
    in the second the chosen field holds an object with a [toString]
    property, and what surfaces is the TypeError of its conversion. *)
Lemma message_precedence_counterexample :
  let empty := VObj [("error", VStr ""); ("message", VStr "Y")] in
  let stubborn := VObj [("error", VObj [("toString", VNum 1)])] in
  (present empty "error" = true
   /\ member empty "error" = VStr ""
   /\ fst (request (net_rejects 400 empty) "post" "/natal-chart" VNull 0
             w_default)
      = Abrupt (JsError (VStr "Y")))
  /\ (present stubborn "error" = true
      /\ fst (request (net_rejects 400 stubborn) "post" "/natal-chart" VNull 0
                w_default)
         = Abrupt JsTypeError).
Proof. cbv zeta. repeat split. Qed.

(** C5, amended: when a call of [request] throws, what it throws is made
    by [new Error(v)] from the rejection of the call's last attempt,
    where [v] is chosen by this precedence: the response body's [error]
    field if that is truthy (present and not empty, null, false or
    zero); otherwise its [message] field if truthy; otherwise its
    [detail] field if truthy; otherwise the failure's own message text
    if it has one that is not empty; otherwise the fixed fallback string.
    The error carries the single message string [String(v)], which is
    [v] itself for a string; and when [v] does not convert to a string
    (it holds an object with a [toString] property of its own), the
    TypeError of the conversion is thrown in the Error's place. *)
Theorem extractMessage_precedence network :
  (forall error,
      let body := response_data error in
      extractMessage (Some error) =
      if truthy body?."error" then body?."error"
      else if truthy body?."message" then body?."message"
      else if truthy body?."detail" then body?."detail"
      else match message error with
           | Some (String c m) => VStr (String c m)
           | _ => VStr "İstek sırasında bir sorun oluştu. Lütfen tekrar dene."
           end)
  /\ extractMessage None
     = VStr "İstek sırasında bir sorun oluştu. Lütfen tekrar dene."
  /\ (forall method path payload attempt w x,
         fst (request network method path payload attempt w) = Abrupt x ->
         exists c error,
           last_attempt network w
             (snd (request network method path payload attempt w))
             c (Rejected error)
           /\ x = new_Error (extractMessage (Some error)))
  /\ (forall num error,
         let v := extractMessage (Some error) in
         match to_string num v with
         | Some s =>
             new_Error v = JsError v
             /\ message_of num (JsError v) = Some s
             /\ (forall s', v = VStr s' -> s = s')
         | None => new_Error v = JsTypeError
         end).
Proof.
  split; [| split; [reflexivity | split]].
  - intros error body. unfold extractMessage, js_or. fold body.
    destruct (truthy body?."error") eqn:E1; cbv iota; rewrite ?E1;
      [reflexivity |].
    destruct (truthy body?."message") eqn:E2; cbv iota; rewrite ?E2;
      [reflexivity |].
    destruct (truthy body?."detail") eqn:E3; cbv iota; rewrite ?E3;
      [reflexivity |].
    unfold message_value.
    destruct (message error) as [[| c m] |]; reflexivity.
  - intros method path payload attempt w x H.
    destruct (request_outcome network method path payload attempt w)
      as (c & r & L & _ & E).
    rewrite H in E. destruct r as [r | error]; [discriminate E |].
    destruct (String.eqb method "get" && status_is_404 error);
      [discriminate E |].
    injection E as ->. exists c, error. split; [exact L | reflexivity].
  - intros num error v. unfold new_Error.
    rewrite (to_string_convertible num v).
    pose proof (extractMessage_truthy (Some error)) as T. fold v in T.
    destruct (to_string num v) as [s |] eqn:S; [| reflexivity].
    split; [reflexivity |]. split.
    + destruct v; try exact S. discriminate T.
    + intros s' ->. cbn in S. congruence.
Qed.

Lemma extractMessage_precedence_witness :
  exists c error,
    last_attempt (net_rejects 500 (VObj [("detail", VStr "boom")])) w_default
      (snd (request (net_rejects 500 (VObj [("detail", VStr "boom")]))
              "post" "/natal-chart" VNull 0 w_default))
      c (Rejected error)
    /\ JsError (VStr "boom") = new_Error (extractMessage (Some error)).
Proof.
  exact (proj1 (proj2 (proj2 (extractMessage_precedence
                                (net_rejects 500
                                   (VObj [("detail", VStr "boom")])))))
           "post" "/natal-chart" VNull 0%nat w_default _ eq_refl).
Defined.

(** ** The request builders *)

(** C7: [sendChatMessage] always returns and never throws; when the
    request behind it fails, what it returns is the fixed apology. *)
Theorem sendChatMessage_never_throws network message chartData w :
  (exists v, fst (sendChatMessage network message chartData w) = Normal v)
  /\ (forall e,
         fst (post network "/chat/message"
                (VObj [("message", message); ("chart", chartData)]) w)
         = Abrupt e ->
         fst (sendChatMessage network message chartData w)
         = Normal (VStr "Üzgünüm, şu anda yanıt veremiyorum.")).
Proof.
  unfold sendChatMessage, try_catch, bind.
  destruct (post network "/chat/message" _ w) as [[response | e] w1].
  - split; [| intros e0; discriminate].
    unfold read_member.
    destruct (nullish response); cbn; eexists; reflexivity.
  - split; [eexists; reflexivity | intros e0 _; reflexivity].
Qed.

Lemma sendChatMessage_never_throws_witness :
  fst (sendChatMessage net_down (VStr "Merhaba") VNull w_default)
  = Normal (VStr "Üzgünüm, şu anda yanıt veremiyorum.").
Proof.
  exact (proj2 (sendChatMessage_never_throws
                  net_down (VStr "Merhaba") VNull w_default)
           (JsError (VStr "Network Error")) eq_refl).
Defined.

(** C8: for a string that [JSON.parse] rejects, [getInterpretation] logs
    two warnings and goes on as it does for any chart: it posts to
    ["/interpretation"] with null in both [chart] and [chart_data], and
    prepares what comes back. *)
Theorem getInterpretation_tolerates_bad_json network JSON_parse s w :
  JSON_parse s = None ->
  getInterpretation network JSON_parse (VStr s) w =
  (data <- post network "/interpretation"
             (VObj [("chart", VNull); ("chart_data", VNull)]) ;;
   ret (prepared data))
    (record
       (ConsoleWarn
          [LogVal (VStr "Invalid chart data supplied to getInterpretation");
           LogVal (VStr s)])
       (record
          (ConsoleWarn [LogVal (VStr "Unable to parse chart data string:");
                        LogExn JsSyntaxError])
          w)).
Proof.
  intros H.
  unfold getInterpretation, parse_or_null, parse, try_catch, bind at 1 2.
  rewrite H. reflexivity.
Qed.

Lemma getInterpretation_tolerates_bad_json_witness :
  sent (trace (snd (getInterpretation (net_replies 200 (VObj []))
                      parse_null_only (VStr "{not json") w_default)))
  = [config "post" "http://localhost:5000/interpretation"
       (VObj [("chart", VNull); ("chart_data", VNull)])].
Proof.
  rewrite (getInterpretation_tolerates_bad_json
             (net_replies 200 (VObj [])) parse_null_only "{not json" w_default
             eq_refl).
  reflexivity.
Defined.

(** *** Reading back what was set *)

Lemma lookup_remove_key_other k k' props :
  k <> k' -> lookup k' (remove_key k props) = lookup k' props.
Proof.
  intros Hk. unfold remove_key.
  induction props as [| [k0 v0] rest IH]; [reflexivity |].
  cbn. destruct (String.eqb_spec k k0) as [<- | Hk0]; cbn.
  - rewrite IH. destruct (String.eqb_spec k' k); [congruence | reflexivity].
  - rewrite IH. reflexivity.
Qed.

Lemma lookup_set_key_same k v props : lookup k (set_key k v props) = Some v.
Proof.
  induction props as [| [k0 v0] rest IH]; cbn.
  - rewrite String.eqb_refl. reflexivity.
  - destruct (String.eqb_spec k k0) as [<- | Hk0]; cbn.
    + rewrite String.eqb_refl. reflexivity.
    + apply String.eqb_neq in Hk0. rewrite Hk0. exact IH.
Qed.

Lemma lookup_set_key_other k k' v props :
  k <> k' -> lookup k' (set_key k v props) = lookup k' props.
Proof.
  intros Hk. induction props as [| [k0 v0] rest IH]; cbn.
  - destruct (String.eqb_spec k' k); [congruence | reflexivity].
  - destruct (String.eqb_spec k k0) as [<- | Hk0]; cbn.
    + destruct (String.eqb_spec k' k); [congruence |].
      apply lookup_remove_key_other. exact Hk.
    + rewrite IH. reflexivity.
Qed.

(** Only an object has a truthy [cards.life]. *)
Lemma truthy_cards_life data :
  truthy data?."cards"?."life" = true -> exists props, data = VObj props.
Proof.
  destruct data; try discriminate. intros _. eexists. reflexivity.
Qed.

(** The card and the bundle of the prepared object. *)
Lemma prepared_facts data :
  let v := prepared data in
  let legacyText :=
    (buildLifeBundle data VUndefined)?."legacy"?."text"
    ||| data?."text" ||| VStr "" in
  member v "life_bundle" = buildLifeBundle data VUndefined
  /\ nullish (member (member v "cards") "life") = false
  /\ (truthy data?."cards"?."life" = false ->
      member (member v "cards") "life" = fallbackCard legacyText)
  /\ (truthy data?."cards"?."life" = true ->
      member (member v "cards") "life" = data?."cards"?."life").
Proof.
  cbn zeta. unfold prepared.
  destruct (truthy data?."cards"?."life") eqn:T; cbn [negb member].
  - rewrite lookup_set_key_same.
    rewrite lookup_set_key_other by discriminate.
    destruct (truthy_cards_life _ T) as [props ->]. cbn [spread].
    assert (E : member (match lookup "cards" props with
                        | Some x => x | None => VUndefined end) "life"
                = (VObj props)?."cards"?."life").
    { unfold opt_member. cbn [nullish member].
      destruct (lookup "cards" props) as [[]|]; reflexivity. }
    rewrite E.
    split; [reflexivity |]. split; [| split; [discriminate | reflexivity]].
    destruct ((VObj props)?."cards"?."life"); try reflexivity; discriminate T.
  - rewrite lookup_set_key_other by discriminate.
    rewrite !lookup_set_key_same. cbn [member].
    rewrite lookup_set_key_same.
    split; [reflexivity |]. split; [reflexivity |].
    split; [reflexivity | discriminate].
Qed.

(** Whatever chart it is given, [getInterpretation] reaches its request:
    nothing before the [post] throws. *)
Lemma getInterpretation_reaches_post network JSON_parse chartData w :
  exists preparedChart w1,
    getInterpretation network JSON_parse chartData w =
    (data <- post network "/interpretation"
               (VObj [("chart", preparedChart); ("chart_data", preparedChart)]) ;;
     ret (prepared data)) w1.
Proof.
  assert (P : exists preparedChart w0,
             match chartData with
             | VStr s => parse_or_null JSON_parse s
             | _ => ret chartData
             end w = (Normal preparedChart, w0)).
  { destruct chartData; try (eexists _, _; reflexivity).
    unfold parse_or_null, parse, try_catch.
    destruct (JSON_parse s); eexists _, _; reflexivity. }
  destruct P as (preparedChart & w0 & P).
  unfold getInterpretation. unfold bind at 1. rewrite P.
  unfold bind at 1.
  destruct (negb (truthy preparedChart) || negb (typeof_object preparedChart));
    eexists _, _; reflexivity.
Qed.

(** C9: when [getInterpretation] returns, some response body [data] came
    back from its request and the returned object is the one prepared
    from it: its [life_bundle] is the bundle built from [data], its
    [cards.life] is neither null nor undefined, and where [data] has no
    (truthy) [cards.life] that entry is the default card, whose narrative
    is the legacy text. *)
Theorem getInterpretation_backfills_card
  network JSON_parse chartData w v w' :
  getInterpretation network JSON_parse chartData w = (Normal v, w') ->
  exists data,
    (exists payload w1,
        post network "/interpretation" payload w1 = (Normal data, w'))
    /\ member v "life_bundle"
       = VObj [("story", data?."life_narrative" ||| VNull);
               ("meta", data?."meta" ||| VNull);
               ("legacy",
                 data?."life_legacy"
                 ||| data?."archetype"?."life_narrative" ||| VNull);
               ("strategy", VStr "primary")]
    /\ nullish (member (member v "cards") "life") = false
    /\ (truthy data?."cards"?."life" = true ->
        member (member v "cards") "life" = data?."cards"?."life")
    /\ (truthy data?."cards"?."life" = false ->
        member (member v "cards") "life"
        = VObj [("title", VStr "Hayat Anlatısı");
                ("narrative",
                  VObj [("main",
                          (data?."life_legacy"
                           ||| data?."archetype"?."life_narrative"
                           ||| VNull)?."text"
                          ||| data?."text" ||| VStr "")]);
                ("reasons", VObj [("psychology", VArr [])]);
                ("actions", VArr []);
                ("tags", VArr []);
                ("confidence_label", VStr "Dengeli")]).
Proof.
  intros H.
  destruct (getInterpretation_reaches_post network JSON_parse chartData w)
    as (preparedChart & w1 & E).
  rewrite E in H. unfold bind in H.
  destruct (post network "/interpretation" _ w1) as [[data | e] w2] eqn:P;
    [| discriminate].
  injection H as <- <-.
  exists data. split; [eexists _, _; exact P |].
  destruct (prepared_facts data) as (Hb & Hn & Hf & Ht).
  split; [exact Hb |]. split; [exact Hn |]. split; [exact Ht |].
  exact Hf.
Qed.

Lemma getInterpretation_backfills_card_witness :
  exists data,
    (exists payload w1,
        post (net_replies 200 (VObj [("text", VStr "Eski metin")]))
          "/interpretation" payload w1
        = (Normal data,
           snd (getInterpretation
                  (net_replies 200 (VObj [("text", VStr "Eski metin")]))
                  parse_null_only (VObj []) w_default)))
    /\ data = VObj [("text", VStr "Eski metin")].
Proof.
  destruct (getInterpretation_backfills_card
              (net_replies 200 (VObj [("text", VStr "Eski metin")]))
              parse_null_only (VObj []) w_default _ _ eq_refl)
    as (data & (payload & w1 & P) & _).
  exists data. split; [exists payload, w1; exact P |].
  unfold post in P. rewrite request_flat in P. cbn in P.
  injection P as <- _. reflexivity.
Defined.

(** ** The active origin over the life of the process *)

Lemma evolves_refl w : evolves w w.
Proof.
  exists []. split; [symmetry; apply app_nil_r |]. left. split; reflexivity.
Qed.

Lemma evolves_trans w1 w2 w3 : evolves w1 w2 -> evolves w2 w3 -> evolves w1 w3.
Proof.
  intros (t1 & E1 & H1) (t2 & E2 & H2).
  exists (t1 ++ t2)%list. split.
  - rewrite E2, E1. symmetry. apply app_assoc.
  - rewrite assignments_app.
    destruct H1 as [(A1 & B1) | (A1 & B1 & C1)];
      destruct H2 as [(A2 & B2) | (A2 & B2 & C2)]; rewrite A1, A2.
    + left. split; [reflexivity | congruence].
    + right. repeat split; congruence.
    + right. repeat split; congruence.
    + exfalso. apply local_is_not_remote. congruence.
Qed.

Lemma evolves_console w args :
  evolves w (record (ConsoleWarn args) w)
  /\ evolves w (record (ConsoleError args) w).
Proof.
  split; eexists; (split; [reflexivity | left; split; reflexivity]).
Qed.

Section Preservation.

Context {A B : Type}.

Lemma preserves_ret (a : A) : preserves (ret a).
Proof. intros w. apply evolves_refl. Qed.

Lemma preserves_throw (e : Exn) : preserves (@throw A e).
Proof. intros w. apply evolves_refl. Qed.

Lemma preserves_bind (m : Js A) (k : A -> Js B) :
  preserves m -> (forall a, preserves (k a)) -> preserves (bind m k).
Proof.
  intros Hm Hk w. unfold bind. specialize (Hm w).
  destruct (m w) as [[a | e] w1]; cbn [snd] in *.
  - eapply evolves_trans; [exact Hm | apply Hk].
  - exact Hm.
Qed.

Lemma preserves_try_catch (m : Js A) (h : Exn -> Js A) :
  preserves m -> (forall e, preserves (h e)) -> preserves (try_catch m h).
Proof.
  intros Hm Hh w. unfold try_catch. specialize (Hm w).
  destruct (m w) as [[a | e] w1]; cbn [snd] in *.
  - exact Hm.
  - eapply evolves_trans; [exact Hm | apply Hh].
Qed.

End Preservation.

Lemma preserves_console_warn args : preserves (console_warn args).
Proof. intros w. apply evolves_console. Qed.

Lemma preserves_console_error args : preserves (console_error args).
Proof. intros w. apply evolves_console. Qed.

Lemma preserves_request network method path payload attempt :
  preserves (request network method path payload attempt).
Proof.
  intros w.
  destruct (request_effect network method path payload attempt w)
    as (t & Ht & [(Ha & Hb & _) | (_ & Hw & _ & Ha & Hb & _)]);
    exists t; (split; [exact Ht |]); [left | right]; repeat split; assumption.
Qed.

Create HintDb origin.
#[local] Hint Resolve preserves_ret preserves_throw preserves_console_warn
  preserves_console_error preserves_request : origin.
#[local] Hint Extern 2 (preserves (bind _ _)) =>
  apply preserves_bind; [| intro] : origin.
#[local] Hint Extern 2 (preserves (try_catch _ _)) =>
  apply preserves_try_catch; [| intro] : origin.
#[local] Hint Extern 3 (preserves (match ?x with _ => _ end)) =>
  destruct x : origin.

Lemma preserves_run_call network JSON_parse encodeURIComponent c :
  preserves (run_call network JSON_parse encodeURIComponent c).
Proof.
  destruct c; cbn [run_call];
    unfold calculateNatalChart, getInterpretation, getAlternateNarrative,
      calculateSynastry, saveUserProfile, fetchUserProfile, updateUserProfile,
      sendChatMessage, parse_or_null, parse, read_member, post, put, get;
    auto 12 with origin.
Qed.

Lemma run_calls_evolves network JSON_parse encodeURIComponent calls w :
  evolves w (run_calls network JSON_parse encodeURIComponent calls w).
Proof.
  revert w. induction calls as [| c rest IH]; intros w; cbn [run_calls].
  - apply evolves_refl.
  - eapply evolves_trans; [apply preserves_run_call | apply IH].
Qed.

Lemma evolves_from_remote w w' :
  activeBaseUrl w = REMOTE_FALLBACK_URL -> evolves w w' ->
  activeBaseUrl w' = REMOTE_FALLBACK_URL
  /\ assignments (trace w') = assignments (trace w).
Proof.
  intros Hw (t & Ht & [(Ha & Hb) | (_ & Hl & _)]).
  - split; [congruence |].
    rewrite Ht, assignments_app, Ha. apply app_nil_r.
  - exfalso. apply local_is_not_remote. congruence.
Qed.

(** C2: the active origin starts as the configured one; over any run of
    calls it is assigned at most once, and then from the local default it
    started as to the fallback; once it is the fallback it stays so; and
    a call of [request] made while it is the fallback makes one attempt,
    at the URL built from the fallback, and no other. *)
Theorem active_origin_switches_at_most_once
  network JSON_parse encodeURIComponent env calls :
  let w0 := initial_world env in
  let w := run_calls network JSON_parse encodeURIComponent calls w0 in
  activeBaseUrl w0 = replace_final_slash (initialBase env)
  /\ ((assignments (trace w) = [] /\ activeBaseUrl w = activeBaseUrl w0)
      \/ (assignments (trace w) = [REMOTE_FALLBACK_URL]
          /\ activeBaseUrl w0 = LOCAL_DEFAULT_URL
          /\ activeBaseUrl w = REMOTE_FALLBACK_URL))
  /\ (forall more,
         activeBaseUrl w = REMOTE_FALLBACK_URL ->
         let w' := run_calls network JSON_parse encodeURIComponent more w in
         activeBaseUrl w' = REMOTE_FALLBACK_URL
         /\ assignments (trace w') = assignments (trace w))
  /\ (forall w1 method path payload,
         activeBaseUrl w1 = REMOTE_FALLBACK_URL ->
         let w' := snd (request network method path payload 0 w1) in
         activeBaseUrl w' = REMOTE_FALLBACK_URL
         /\ sent (trace w')
            = (sent (trace w1)
               ++ [config method (makeUrl REMOTE_FALLBACK_URL path) payload])%list).
Proof.
  cbn zeta. split; [reflexivity |]. split; [| split].
  - destruct (run_calls_evolves network JSON_parse encodeURIComponent calls
                (initial_world env)) as (t & Ht & H).
    cbn [initial_world trace app] in Ht. rewrite Ht. exact H.
  - intros more Hw. apply evolves_from_remote; [exact Hw |].
    apply run_calls_evolves.
  - intros w1 method path payload Hw.
    destruct (request_effect network method path payload 0 w1)
      as (t & Ht & [(_ & Hb & Hs) | (_ & Hl & _)]).
    + split; [congruence |].
      rewrite Ht, sent_app, Hs, Hw. reflexivity.
    + exfalso. apply local_is_not_remote. congruence.
Qed.

Lemma active_origin_switches_at_most_once_witness :
  let w := run_calls net_down parse_null_only encode_plain
             [CalculateNatalChart VNull] w_default in
  activeBaseUrl
    (run_calls net_down parse_null_only encode_plain
       [SendChatMessage (VStr "Merhaba") VNull; FetchUserProfile (VStr "a@b.c")]
       w)
  = REMOTE_FALLBACK_URL
  /\ assignments
       (trace
          (run_calls net_down parse_null_only encode_plain
             [SendChatMessage (VStr "Merhaba") VNull;
              FetchUserProfile (VStr "a@b.c")]
             w))
     = assignments (trace w).
Proof.
  exact (proj1 (proj2 (proj2 (active_origin_switches_at_most_once
                                net_down parse_null_only encode_plain None
                                [CalculateNatalChart VNull])))
           [SendChatMessage (VStr "Merhaba") VNull;
            FetchUserProfile (VStr "a@b.c")]
           eq_refl).
Defined.

(** * Further properties of the module *)

(** ** Strings that are joined and taken apart *)

Lemma length_app_string a b :
  String.length (a ++ b) = (String.length a + String.length b)%nat.
Proof. induction a as [| c a IH]; cbn; [reflexivity | rewrite IH; reflexivity]. Qed.

Lemma substring_skip a b m :
  String.substring (String.length a) m (a ++ b) = String.substring 0 m b.
Proof. induction a as [| c a IH]; cbn; [reflexivity | exact IH]. Qed.

Lemma substring_take a b :
  String.substring 0 (String.length a) (a ++ b) = a.
Proof.
  induction a as [| c a IH]; cbn.
  - destruct b; reflexivity.
  - rewrite IH. reflexivity.
Qed.

Lemma substring_all s : String.substring 0 (String.length s) s = s.
Proof. induction s as [| c s IH]; cbn; [| rewrite IH]; reflexivity. Qed.

Lemma prefix_app a b : String.prefix a (a ++ b) = true.
Proof.
  induction a as [| c a IH]; cbn; [destruct b; reflexivity |].
  destruct (ascii_dec c c); [exact IH | congruence].
Qed.

Lemma endsWith_app a p : endsWith (a ++ p) p = true.
Proof.
  unfold endsWith. rewrite length_app_string.
  replace (String.length a + String.length p - String.length p)%nat
    with (String.length a) by lia.
  rewrite substring_skip, substring_all, String.eqb_refl, andb_true_r.
  apply Nat.leb_le. lia.
Qed.

Lemma slice_app_one a c : slice_0_minus1 (a ++ String c "") = a.
Proof.
  unfold slice_0_minus1. rewrite length_app_string. cbn [String.length].
  replace (String.length a + 1 - 1)%nat with (String.length a) by lia.
  apply substring_take.
Qed.

Lemma replace_final_slash_app a : replace_final_slash (a ++ "/") = a.
Proof.
  unfold replace_final_slash. rewrite endsWith_app. apply slice_app_one.
Qed.

Lemma fold_case_str_app a b :
  fold_case_str (a ++ b) = fold_case_str a ++ fold_case_str b.
Proof. induction a as [| c a IH]; cbn; [| rewrite IH]; reflexivity. Qed.

Lemma includes_app needle a b : includes needle (a ++ needle ++ b) = true.
Proof.
  induction a as [| c a IH].
  - cbn [append]. destruct (needle ++ b) eqn:E; cbn [includes];
      rewrite <- E, prefix_app; reflexivity.
  - cbn [append includes]. rewrite IH. apply orb_true_r.
Qed.

(** ** Configuration *)

Lemma trimStart_fuel_fixed fuel s :
  skip_white s = None -> trimStart_fuel fuel s = s.
Proof. intros H. destruct fuel; cbn; [| rewrite H]; reflexivity. Qed.

Lemma trimStart_idempotent s : trimStart (trimStart s) = trimStart s.
Proof. apply trimStart_fuel_fixed. apply trimStart_done. Qed.

Lemma trimEnd_empty s : isEmpty (trimEnd s) = isEmpty s || all_white s.
Proof.
  destruct s as [| c s]; [reflexivity |].
  cbn [trimEnd isEmpty orb]. destruct (all_white (String c s)); reflexivity.
Qed.

Lemma trim_empty u : isEmpty (trim u) = all_white u.
Proof.
  unfold trim. rewrite trimEnd_empty. unfold all_white at 1.
  rewrite trimStart_idempotent. fold (all_white u). apply orb_diag.
Qed.

(** X1: an override that is absent, empty or white space only leaves the
    local default as the initial origin; any other override is trimmed and
    loses one final slash. *)
Theorem initial_origin_by_override env :
  initialActiveBaseUrl env =
  match env with
  | Some {| VITE_API_URL := Some u |} =>
      if all_white u then LOCAL_DEFAULT_URL else replace_final_slash (trim u)
  | _ => LOCAL_DEFAULT_URL
  end.
Proof.
  unfold initialActiveBaseUrl, initialBase.
  destruct env as [[[u |]] |]; try reflexivity.
  rewrite trim_empty.
  destruct (isEmpty u) eqn:E.
  - destruct u; [reflexivity | discriminate E].
  - destruct (all_white u); reflexivity.
Qed.

(** ** Spellings of the same URL *)

(** X2: a final slash on the origin makes no difference to the URL of a
    path that is not empty. *)
Theorem makeUrl_final_slash_immaterial base path :
  path <> "" ->
  endsWith base "/" = false ->
  makeUrl (base ++ "/") path = makeUrl base path.
Proof.
  intros Hp Hb. unfold makeUrl. rewrite (isEmpty_false _ Hp).
  destruct (startsWith path "http://" || startsWith path "https://");
    [reflexivity |].
  rewrite endsWith_app, slice_app_one, Hb. reflexivity.
Qed.

Lemma makeUrl_final_slash_immaterial_witness :
  makeUrl ("https://api.example.com" ++ "/") "chat/message"
  = makeUrl "https://api.example.com" "chat/message".
Proof.
  exact (makeUrl_final_slash_immaterial "https://api.example.com"
           "chat/message" ltac:(discriminate) eq_refl).
Defined.

(** X3: a relative path may be written with or without its leading
    slash; the URL is the same. *)
Theorem makeUrl_leading_slash_immaterial base path :
  path <> "" ->
  is_absolute path = false ->
  startsWith path "/" = false ->
  makeUrl base ("/" ++ path) = makeUrl base path.
Proof.
  intros Hp Ha Hs.
  assert (E : makeUrl base ("/" ++ path)
              = replace_final_slash base ++ "/" ++ path).
  { destruct path; [congruence | reflexivity]. }
  rewrite E. unfold makeUrl. rewrite (isEmpty_false _ Hp).
  unfold is_absolute in Ha. rewrite Ha, Hs. reflexivity.
Qed.

Lemma makeUrl_leading_slash_immaterial_witness :
  makeUrl LOCAL_DEFAULT_URL ("/" ++ "natal-chart")
  = makeUrl LOCAL_DEFAULT_URL "natal-chart".
Proof.
  exact (makeUrl_leading_slash_immaterial LOCAL_DEFAULT_URL "natal-chart"
           ltac:(discriminate) eq_refl eq_refl).
Defined.

(** X4: whatever the origin, the URL ends with the path it was built
    for. *)
Theorem makeUrl_ends_with_path base path :
  endsWith (makeUrl base path) path = true.
Proof.
  unfold makeUrl.
  destruct (isEmpty path) eqn:E.
  - destruct path; [| discriminate E].
    unfold endsWith. cbn [String.length Nat.leb andb]. rewrite Nat.sub_0_r.
    assert (Z : forall n s, String.substring n 0 s = "").
    { intros n s. revert n. induction s as [| c s IH]; intros [| n]; cbn;
        try reflexivity. apply IH. }
    rewrite Z. reflexivity.
  - destruct (startsWith path "http://" || startsWith path "https://").
    + apply (endsWith_app "" path).
    + destruct (startsWith path "/").
      * apply endsWith_app.
      * replace ((if endsWith base "/" then slice_0_minus1 base else base)
                 ++ "/" ++ path)
          with (((if endsWith base "/" then slice_0_minus1 base else base)
                 ++ "/") ++ path).
        -- apply endsWith_app.
        -- generalize (if endsWith base "/" then slice_0_minus1 base else base).
           intros s. induction s as [| c s IH]; cbn; [| rewrite IH]; reflexivity.
Qed.

(** ** What counts as a network error *)

(** X5: a rejection that carries a response is never a network error;
    one without a response is a network error when its code is
    ["ERR_NETWORK"], and also when its message contains the words
    "network error" in any mix of upper and lower case, wherever they
    stand in the message and whatever the code. *)
Theorem network_error_classification :
  (forall r c m,
      isNetworkError {| response := Some r; code := c; message := m |} = false)
  /\ (forall m,
         isNetworkError
           {| response := None; code := Some "ERR_NETWORK"; message := m |}
         = true)
  /\ (forall c before words after,
         fold_case_str words = fold_case_str "Network Error" ->
         isNetworkError
           {| response := None; code := c;
              message := Some (before ++ words ++ after) |}
         = true).
Proof.
  split; [reflexivity |]. split; [reflexivity |].
  intros c before words after H.
  unfold isNetworkError. cbn [response code message].
  assert (T : test_Network_Error_i (before ++ words ++ after) = true).
  { unfold test_Network_Error_i.
    rewrite !fold_case_str_app, H. apply includes_app. }
  rewrite T. apply orb_true_r.
Qed.

Lemma network_error_classification_witness :
  isNetworkError
    {| response := None; code := None;
       message := Some ("axios: " ++ "NETWORK error" ++ " (offline)") |}
  = true.
Proof.
  exact (proj2 (proj2 network_error_classification)
           None "axios: " "NETWORK error" " (offline)" eq_refl).
Defined.

(** ** More on [request] *)

(** X6: a rejection that carries an HTTP response is never retried, not
    even at the local default: the call makes that one attempt, logs the
    error and leaves the origin alone; it returns null if it is a ["get"]
    that met a 404, and otherwise throws what
    [new Error(extractMessage(error))] throws: the Error, or the
    TypeError of a chosen value that does not convert to a string. *)
Theorem http_error_is_final
  network method path payload attempt w error r :
  network (trace w) (config method (makeUrl (activeBaseUrl w) path) payload)
  = Rejected error ->
  response error = Some r ->
  request network method path payload attempt w =
  (if String.eqb method "get" && (status r =? 404)%Z then Normal VNull
   else Abrupt (if convertible (extractMessage (Some error))
                then JsError (extractMessage (Some error))
                else JsTypeError),
   {| activeBaseUrl := activeBaseUrl w;
      trace := (trace w
                ++ [Sent (config method (makeUrl (activeBaseUrl w) path) payload);
                    error_log path error])%list |}).
Proof.
  intros N Hr. rewrite request_flat. cbn zeta. rewrite N.
  rewrite (response_no_retry _ _ _ _ Hr), surface_eq.
  unfold status_is_404. rewrite Hr.
  unfold record. cbn [activeBaseUrl trace]. rewrite <- app_assoc.
  reflexivity.
Qed.

Lemma http_error_is_final_witness :
  request (net_rejects 500 (VObj [("message", VStr "Sunucu hatası")]))
    "get" "/api/profile" VUndefined 0 w_default
  = (Abrupt (JsError (VStr "Sunucu hatası")),
     {| activeBaseUrl := LOCAL_DEFAULT_URL;
        trace := [Sent (config "get" "http://localhost:5000/api/profile"
                          VUndefined);
                  error_log "/api/profile"
                    (http_error 500
                       (VObj [("message", VStr "Sunucu hatası")]))] |}).
Proof.
  exact (http_error_is_final
           (net_rejects 500 (VObj [("message", VStr "Sunucu hatası")]))
           "get" "/api/profile" VUndefined 0 w_default _ _ eq_refl eq_refl).
Defined.

(** X7: [request] makes nothing up.  A value it returns is the body of
    the response that axios resolved the call's last attempt with, or it
    is null and the call was a ["get"] whose last attempt was rejected
    with status 404.  That attempt was made with the method and payload
    of the call, at the URL built from the origin the call began with or
    from the fallback. *)
Theorem request_returns_what_came_back
  network method path payload attempt w v :
  fst (request network method path payload attempt w) = Normal v ->
  exists c,
    (c = config method (makeUrl (activeBaseUrl w) path) payload
     \/ c = config method (makeUrl REMOTE_FALLBACK_URL path) payload)
    /\ ((exists r,
            last_attempt network w
              (snd (request network method path payload attempt w))
              c (Resolved r)
            /\ v = data r)
        \/ (method = "get" /\ v = VNull
            /\ exists error r,
                 last_attempt network w
                   (snd (request network method path payload attempt w))
                   c (Rejected error)
                 /\ response error = Some r /\ status r = 404%Z)).
Proof.
  intros H.
  destruct (request_outcome network method path payload attempt w)
    as (c & r & L & Hc & E).
  rewrite H in E. exists c. split; [exact Hc |].
  destruct r as [r | error].
  - left. exists r. split; [exact L | congruence].
  - right.
    destruct (String.eqb method "get") eqn:M; [| discriminate E].
    unfold status_is_404 in E.
    destruct (response error) as [r |] eqn:R; [| discriminate E].
    destruct (status r =? 404)%Z eqn:Z; [| discriminate E].
    apply String.eqb_eq in M. apply Z.eqb_eq in Z.
    split; [exact M |]. split; [cbn in E; congruence |].
    exists error, r. repeat split; assumption.
Qed.

Lemma request_returns_what_came_back_witness :
  exists c,
    (c = config "post" (makeUrl (activeBaseUrl w_default) "/natal-chart") VNull
     \/ c = config "post" (makeUrl REMOTE_FALLBACK_URL "/natal-chart") VNull)
    /\ ((exists r,
            last_attempt (net_local_down (VStr "ok")) w_default
              (snd (request (net_local_down (VStr "ok")) "post" "/natal-chart"
                      VNull 0 w_default))
              c (Resolved r)
            /\ VStr "ok" = data r)
        \/ ("post" = "get" /\ VStr "ok" = VNull
            /\ exists error r,
                 last_attempt (net_local_down (VStr "ok")) w_default
                   (snd (request (net_local_down (VStr "ok")) "post"
                           "/natal-chart" VNull 0 w_default))
                   c (Rejected error)
                 /\ response error = Some r /\ status r = 404%Z)).
Proof.
  exact (request_returns_what_came_back
           (net_local_down (VStr "ok")) "post" "/natal-chart" VNull 0
           w_default (VStr "ok") eq_refl).
Defined.

(** X8: every attempt of a call hands axios the method and the payload
    of the call, the JSON content type and the timeout of 15000 ms. *)
Theorem attempts_carry_the_call network method path payload attempt w :
  exists t,
    trace (snd (request network method path payload attempt w))
    = (trace w ++ t)%list
    /\ Forall (fun c =>
                 Config.method c = method
                 /\ Config.data c = payload
                 /\ Config.headers c = [("Content-Type", "application/json")]
                 /\ Config.timeout c = 15000%Z)
         (sent t).
Proof.
  destruct (request_effect network method path payload attempt w)
    as (t & Ht & [(_ & _ & Hs) | (_ & _ & _ & _ & _ & Hs)]);
    exists t; (split; [exact Ht |]); rewrite Hs;
    repeat constructor.
Qed.

(** X9: when the local default fails with a network error and the
    fallback answers, the caller gets the fallback's body as if nothing
    had failed; the failure shows only as the warning in the console. *)
Theorem fallback_answer_is_returned
  network method path payload w error r :
  let c1 := config method (makeUrl LOCAL_DEFAULT_URL path) payload in
  let c2 := config method (makeUrl REMOTE_FALLBACK_URL path) payload in
  activeBaseUrl w = LOCAL_DEFAULT_URL ->
  network (trace w) c1 = Rejected error ->
  isNetworkError error = true ->
  network (trace w ++ [Sent c1; fallback_warning;
                       Assigned REMOTE_FALLBACK_URL])%list c2
  = Resolved r ->
  request network method path payload 0 w =
  (Normal (data r),
   {| activeBaseUrl := REMOTE_FALLBACK_URL;
      trace := (trace w ++ [Sent c1; fallback_warning;
                            Assigned REMOTE_FALLBACK_URL; Sent c2])%list |}).
Proof.
  cbn zeta. intros Hw N1 He N2.
  rewrite request_flat. cbn zeta. rewrite Hw, N1.
  assert (R : canRetry 0 error
                (record (Sent (config method
                                 (makeUrl LOCAL_DEFAULT_URL path) payload)) w)
              = true).
  { apply canRetry_true. repeat split; assumption. }
  rewrite R.
  unfold switched, assign, record. cbn [trace activeBaseUrl].
  rewrite <- !app_assoc. cbn [app]. rewrite N2. cbn [settle].
  reflexivity.
Qed.

Lemma fallback_answer_is_returned_witness :
  fst (request (net_local_down (VObj [("sun", VStr "Koç")]))
         "post" "/natal-chart" VNull 0 w_default)
  = Normal (VObj [("sun", VStr "Koç")]).
Proof.
  rewrite (fallback_answer_is_returned
             (net_local_down (VObj [("sun", VStr "Koç")]))
             "post" "/natal-chart" VNull w_default unreachable
             {| status := 200; data := VObj [("sun", VStr "Koç")] |}
             eq_refl eq_refl eq_refl eq_refl).
  reflexivity.
Defined.

(** ** The life bundle and the prepared interpretation *)

(** X10: a life bundle has the four fields story, meta, legacy and
    strategy, in that order.  The story is [data.life_narrative] when
    that is truthy and null otherwise; the meta likewise from
    [data.meta]; the legacy is [data.life_legacy] when truthy, else
    [data.archetype.life_narrative] when truthy, else null.  So none of
    the three is ever undefined or a falsy value other than null, and a
    null or undefined response gives three nulls.  The strategy is the
    argument, with ["primary"] standing in for an undefined one. *)
Theorem buildLifeBundle_fields data strategy :
  buildLifeBundle data strategy
  = VObj [("story",
            if truthy data?."life_narrative" then data?."life_narrative"
            else VNull);
          ("meta", if truthy data?."meta" then data?."meta" else VNull);
          ("legacy",
            if truthy data?."life_legacy" then data?."life_legacy"
            else if truthy data?."archetype"?."life_narrative"
                 then data?."archetype"?."life_narrative"
                 else VNull);
          ("strategy",
            match strategy with VUndefined => VStr "primary" | s => s end)]
  /\ (forall k,
         k = "story" \/ k = "meta" \/ k = "legacy" ->
         truthy (member (buildLifeBundle data strategy) k) = true
         \/ member (buildLifeBundle data strategy) k = VNull)
  /\ (nullish data = true ->
      buildLifeBundle data strategy
      = VObj [("story", VNull); ("meta", VNull); ("legacy", VNull);
              ("strategy",
                match strategy with
                | VUndefined => VStr "primary"
                | s => s
                end)]).
Proof.
  assert (E : buildLifeBundle data strategy
              = VObj [("story",
                        if truthy data?."life_narrative"
                        then data?."life_narrative" else VNull);
                      ("meta",
                        if truthy data?."meta" then data?."meta" else VNull);
                      ("legacy",
                        if truthy data?."life_legacy" then data?."life_legacy"
                        else if truthy data?."archetype"?."life_narrative"
                             then data?."archetype"?."life_narrative"
                             else VNull);
                      ("strategy",
                        match strategy with
                        | VUndefined => VStr "primary"
                        | s => s
                        end)]).
  { unfold buildLifeBundle, js_or, default_arg.
    destruct (truthy data?."life_legacy") eqn:T1; cbv iota; rewrite ?T1;
      [reflexivity |].
    destruct (truthy data?."archetype"?."life_narrative") eqn:T2;
      reflexivity. }
  split; [exact E |]. split.
  - intros k Hk. rewrite E.
    destruct Hk as [-> | [-> | ->]]; cbn [member lookup String.eqb Ascii.eqb
                                           Bool.eqb].
    + destruct (truthy data?."life_narrative") eqn:T; auto.
    + destruct (truthy data?."meta") eqn:T; auto.
    + destruct (truthy data?."life_legacy") eqn:T1; auto.
      destruct (truthy data?."archetype"?."life_narrative") eqn:T2; auto.
  - intros N. rewrite E. destruct data; try discriminate N; reflexivity.
Qed.

Lemma buildLifeBundle_fields_witness :
  buildLifeBundle VUndefined (VStr "secondary")
  = VObj [("story", VNull); ("meta", VNull); ("legacy", VNull);
          ("strategy", VStr "secondary")].
Proof.
  exact (proj2 (proj2 (buildLifeBundle_fields VUndefined (VStr "secondary")))
           eq_refl).
Defined.

(** X11: preparing a response object keeps every field of it other than
    [life_bundle] and [cards] as it came. *)
Theorem prepared_keeps_other_fields props k :
  k <> "life_bundle" -> k <> "cards" ->
  member (prepared (VObj props)) k = member (VObj props) k.
Proof.
  intros H1 H2. unfold prepared. cbn [member spread].
  destruct (negb (truthy (VObj props)?."cards"?."life")).
  - rewrite lookup_set_key_other by congruence.
    rewrite lookup_set_key_other by congruence. reflexivity.
  - rewrite lookup_set_key_other by congruence. reflexivity.
Qed.

Lemma prepared_keeps_other_fields_witness :
  member (prepared (VObj [("text", VStr "Metin"); ("cards", VNull)])) "text"
  = VStr "Metin".
Proof.
  exact (prepared_keeps_other_fields
           [("text", VStr "Metin"); ("cards", VNull)] "text"
           ltac:(discriminate) ltac:(discriminate)).
Defined.

(** X12: when the default life card is filled in, the cards the response
    did bring are kept beside it. *)
Theorem prepared_keeps_other_cards data cards k :
  data?."cards" = VObj cards ->
  truthy (member (VObj cards) "life") = false ->
  k <> "life" ->
  member (member (prepared data) "cards") k = member (VObj cards) k.
Proof.
  intros Hc Hl Hk. unfold prepared.
  assert (T : truthy data?."cards"?."life" = false).
  { rewrite Hc. exact Hl. }
  rewrite T. cbn [negb member].
  rewrite lookup_set_key_same. cbn [member].
  rewrite lookup_set_key_other by congruence.
  rewrite Hc. unfold js_or. cbn [truthy spread]. reflexivity.
Qed.

Lemma prepared_keeps_other_cards_witness :
  member (member (prepared (VObj [("cards", VObj [("love", VStr "Aşk")])]))
            "cards") "love"
  = VStr "Aşk".
Proof.
  exact (prepared_keeps_other_cards
           (VObj [("cards", VObj [("love", VStr "Aşk")])])
           [("love", VStr "Aşk")] "love"
           eq_refl eq_refl ltac:(discriminate)).
Defined.

(** X13: a chart handed over as a JSON string is treated exactly like the
    object or array it parses to handed over directly. *)
Theorem getInterpretation_parses_string network JSON_parse s v w :
  JSON_parse s = Some v ->
  match v with VObj _ | VArr _ => True | _ => False end ->
  getInterpretation network JSON_parse (VStr s) w
  = getInterpretation network JSON_parse v w.
Proof.
  intros H Hv.
  unfold getInterpretation, parse_or_null, parse, try_catch, bind at 1 3.
  rewrite H. destruct v; try contradiction; reflexivity.
Qed.

Lemma getInterpretation_parses_string_witness :
  getInterpretation (net_replies 200 VNull)
    (fun s => if String.eqb s "[]" then Some (VArr []) else None)
    (VStr "[]") w_default
  = getInterpretation (net_replies 200 VNull)
      (fun s => if String.eqb s "[]" then Some (VArr []) else None)
      (VArr []) w_default.
Proof.
  exact (getInterpretation_parses_string (net_replies 200 VNull)
           (fun s => if String.eqb s "[]" then Some (VArr []) else None)
           "[]" (VArr []) w_default eq_refl I).
Defined.

(** ** The other request builders *)

(** X14: when [getAlternateNarrative] returns, what it returns is the
    life bundle of the response, labelled with the very strategy that
    was sent as [alt_strategy]: the one passed, or ["secondary"] when
    none was; it is never relabelled ["primary"]. *)
Theorem getAlternateNarrative_labels_bundle
  network JSON_parse chartData strategy w v w' :
  getAlternateNarrative network JSON_parse chartData strategy w
  = (Normal v, w') ->
  let label :=
    match strategy with VUndefined => VStr "secondary" | s => s end in
  exists preparedChart w1 data,
    post network "/interpretation"
      (VObj [("chart", preparedChart); ("chart_data", preparedChart);
             ("alt_strategy", label)]) w1
    = (Normal data, w')
    /\ v = VObj [("story", data?."life_narrative" ||| VNull);
                 ("meta", data?."meta" ||| VNull);
                 ("legacy",
                   data?."life_legacy"
                   ||| data?."archetype"?."life_narrative" ||| VNull);
                 ("strategy", label)].
Proof.
  cbn zeta. unfold getAlternateNarrative.
  assert (P : exists preparedChart w0,
             match chartData with
             | VStr s => parse_or_null JSON_parse s
             | _ => ret chartData
             end w = (Normal preparedChart, w0)).
  { destruct chartData; try (eexists _, _; reflexivity).
    unfold parse_or_null, parse, try_catch.
    destruct (JSON_parse s); eexists _, _; reflexivity. }
  destruct P as (preparedChart & w0 & P).
  unfold bind at 1. rewrite P. unfold bind.
  destruct (post network "/interpretation" _ w0) as [[data | e] w2] eqn:Q;
    [| discriminate].
  intros [= <- <-]. exists preparedChart, w0, data.
  split; [exact Q |].
  unfold buildLifeBundle, default_arg. destruct strategy; reflexivity.
Qed.

Lemma getAlternateNarrative_labels_bundle_witness :
  exists preparedChart w1 data,
    post (net_replies 200 (VObj [("meta", VStr "m")])) "/interpretation"
      (VObj [("chart", preparedChart); ("chart_data", preparedChart);
             ("alt_strategy", VStr "secondary")]) w1
    = (Normal data,
       snd (getAlternateNarrative (net_replies 200 (VObj [("meta", VStr "m")]))
              parse_null_only VNull VUndefined w_default))
    /\ VObj [("story", VNull); ("meta", VStr "m"); ("legacy", VNull);
             ("strategy", VStr "secondary")]
       = VObj [("story", data?."life_narrative" ||| VNull);
               ("meta", data?."meta" ||| VNull);
               ("legacy",
                 data?."life_legacy"
                 ||| data?."archetype"?."life_narrative" ||| VNull);
               ("strategy", VStr "secondary")].
Proof.
  exact (getAlternateNarrative_labels_bundle
           (net_replies 200 (VObj [("meta", VStr "m")]))
           parse_null_only VNull VUndefined w_default _ _ eq_refl).
Defined.

(** *** What the exports can throw *)

Section ThrowsOnly.

Context {A B : Type} (P : Exn -> Prop).

Lemma throws_only_ret (a : A) : throws_only P (ret a).
Proof. intros w e. discriminate. Qed.

Lemma throws_only_throw (x : Exn) : P x -> throws_only P (@throw A x).
Proof. intros H w e [= <-]. exact H. Qed.

Lemma throws_only_bind (m : Js A) (k : A -> Js B) :
  throws_only P m -> (forall a, throws_only P (k a)) ->
  throws_only P (bind m k).
Proof.
  intros Hm Hk w e. unfold bind. specialize (Hm w).
  destruct (m w) as [[a | x] w1]; cbn [fst] in *.
  - apply Hk.
  - intros [= <-]. apply Hm. reflexivity.
Qed.

Lemma throws_only_try_catch (m : Js A) (h : Exn -> Js A) :
  (forall x, throws_only P (h x)) -> throws_only P (try_catch m h).
Proof.
  intros Hh w e. unfold try_catch.
  destruct (m w) as [[a | x] w1]; cbn [fst].
  - discriminate.
  - apply Hh.
Qed.

End ThrowsOnly.

Lemma throws_only_console_warn P args : throws_only P (console_warn args).
Proof. intros w e. discriminate. Qed.

Lemma throws_only_console_error P args : throws_only P (console_error args).
Proof. intros w e. discriminate. Qed.

(** What [request] throws is an Error or the TypeError of a conversion;
    and an Error only, when every message that a rejection can carry
    converts to a string. *)
Lemma request_throws_Error_or_TypeError network method path payload attempt :
  throws_only (fun e => is_Error e \/ e = JsTypeError)
    (request network method path payload attempt).
Proof.
  intros w e H.
  destruct (request_outcome network method path payload attempt w)
    as (c & r & _ & _ & E).
  rewrite H in E. destruct r as [r | error]; [discriminate E |].
  destruct (_ && _); [discriminate E |].
  injection E as ->. unfold new_Error.
  destruct (convertible _); [left; eexists; reflexivity | right; reflexivity].
Qed.

Lemma request_throws_Error network method path payload attempt :
  (forall t c error,
      network t c = Rejected error ->
      convertible (extractMessage (Some error)) = true) ->
  throws_only is_Error (request network method path payload attempt).
Proof.
  intros Hn w e H.
  destruct (request_outcome network method path payload attempt w)
    as (c & r & (before & after & _ & N & _) & _ & E).
  rewrite H in E. destruct r as [r | error]; [discriminate E |].
  destruct (_ && _); [discriminate E |].
  assert (X : e = new_Error (extractMessage (Some error))) by congruence.
  rewrite X. unfold new_Error. rewrite (Hn _ _ _ N).
  eexists. reflexivity.
Qed.

Create HintDb throws.
#[local] Hint Resolve throws_only_ret throws_only_console_warn
  throws_only_console_error : throws.
#[local] Hint Extern 2 (throws_only _ (bind _ _)) =>
  apply throws_only_bind; [| intro] : throws.
#[local] Hint Extern 2 (throws_only _ (try_catch _ _)) =>
  apply throws_only_try_catch; intro : throws.
#[local] Hint Extern 3 (throws_only _ (match ?x with _ => _ end)) =>
  destruct x : throws.

Section ExportsThrow.

Variable network : list Event -> Config.t -> AxiosResult.
Variable JSON_parse : string -> option Value.
Variable encodeURIComponent : Value -> option string.

(** [R] holds of every Error and of all that [request] throws. *)
Variable R : Exn -> Prop.
Hypothesis R_Error : forall v, R (JsError v).
Hypothesis R_request :
  forall method path payload attempt,
    throws_only R (request network method path payload attempt).

Lemma other_exports_throw call :
  (forall email, call <> FetchUserProfile email) ->
  throws_only R (run_call network JSON_parse encodeURIComponent call).
Proof.
  intros H.
  destruct call; cbn [run_call];
    try (exfalso; eapply H; reflexivity);
    unfold calculateNatalChart, getInterpretation, getAlternateNarrative,
      calculateSynastry, saveUserProfile, updateUserProfile,
      sendChatMessage, parse_or_null, post, put;
    auto 12 with throws.
Qed.

Lemma fetchUserProfile_throws email :
  throws_only
    (fun e => R e
              \/ (e = JsTypeError /\ convertible email = false)
              \/ (e = JsURIError /\ convertible email = true))
    (fetchUserProfile network encodeURIComponent email).
Proof.
  unfold fetchUserProfile.
  destruct (negb (truthy email)).
  - apply throws_only_throw. left. apply R_Error.
  - destruct (encodeURIComponent email) as [s |].
    + intros w e H. left. revert w e H.
      fold (throws_only R
              (result <- get network ("/api/profile?email=" ++ s) ;;
               if negb (truthy result) then ret VNull
               else match member result "profile" with
                    | VUndefined => ret result
                    | profile => ret profile
                    end)).
      unfold get. auto 12 with throws.
    + apply throws_only_throw.
      destruct (convertible email); [right; right | right; left];
        split; reflexivity.
Qed.

End ExportsThrow.

(** X15: no export ever throws a SyntaxError.  A URIError comes from
    [fetchUserProfile] only, for an e-mail that converts to a string.
    And when every message that a rejection can carry converts to a
    string, a TypeError comes from [fetchUserProfile] only, for an
    e-mail that does not convert: no other TypeError gets out of an
    export. *)
Theorem exports_throw_errors_only
  network JSON_parse encodeURIComponent call w e :
  fst (run_call network JSON_parse encodeURIComponent call w) = Abrupt e ->
  e <> JsSyntaxError
  /\ (e = JsURIError ->
      exists email, call = FetchUserProfile email /\ convertible email = true)
  /\ ((forall t c error,
          network t c = Rejected error ->
          convertible (extractMessage (Some error)) = true) ->
      e = JsTypeError ->
      exists email, call = FetchUserProfile email /\ convertible email = false).
Proof.
  intros H.
  assert (D : (exists email, call = FetchUserProfile email)
              \/ (forall email, call <> FetchUserProfile email)).
  { destruct call; try (right; intros email0; discriminate).
    left. eexists. reflexivity. }
  assert (E1 : forall v, is_Error (JsError v) \/ JsError v = JsTypeError).
  { intros v. left. eexists. reflexivity. }
  assert (E2 : forall v, is_Error (JsError v)).
  { intros v. eexists. reflexivity. }
  destruct D as [[email ->] | D].
  - cbn [run_call] in H.
    pose proof (fetchUserProfile_throws network encodeURIComponent _ E1
                  (request_throws_Error_or_TypeError network) email w e H)
      as A.
    split; [| split].
    + destruct A as [[[v ->] | ->] | [[-> _] | [-> _]]]; discriminate.
    + intros ->. exists email. split; [reflexivity |].
      destruct A as [[[v A] | A] | [[A _] | [_ A]]];
        try discriminate A; exact A.
    + intros Hn ->.
      pose proof (fetchUserProfile_throws network encodeURIComponent _ E2
                    (fun m p d a => request_throws_Error network m p d a Hn)
                    email w _ H) as B.
      exists email. split; [reflexivity |].
      destruct B as [[v B] | [[_ B] | [B _]]]; try discriminate B; exact B.
  - pose proof (other_exports_throw network JSON_parse encodeURIComponent _
                  (request_throws_Error_or_TypeError network) call D w e H)
      as A.
    split; [| split].
    + destruct A as [[v ->] | ->]; discriminate.
    + intros ->. destruct A as [[v A] | A]; discriminate A.
    + intros Hn ->.
      pose proof (other_exports_throw network JSON_parse encodeURIComponent
                    _
                    (fun m p d a => request_throws_Error network m p d a Hn)
                    call D w _ H) as [v B].
      discriminate B.
Qed.

Lemma exports_throw_errors_only_witness :
  JsTypeError <> JsSyntaxError
  /\ (JsTypeError = JsURIError ->
      exists email,
        FetchUserProfile (VObj [("toString", VNull)]) = FetchUserProfile email
        /\ convertible email = true)
  /\ ((forall t c error,
          net_down t c = Rejected error ->
          convertible (extractMessage (Some error)) = true) ->
      JsTypeError = JsTypeError ->
      exists email,
        FetchUserProfile (VObj [("toString", VNull)]) = FetchUserProfile email
        /\ convertible email = false).
Proof.
  exact (exports_throw_errors_only net_down parse_null_only encode_plain
           (FetchUserProfile (VObj [("toString", VNull)])) w_default
           JsTypeError eq_refl).
Defined.

(** *** [fetchUserProfile] *)

(** X16: without an e-mail address [fetchUserProfile] throws its own
    error before anything reaches the network or the console; and
    whatever the server sends, it never returns undefined: a missing or
    falsy body reads as null. *)
Theorem fetchUserProfile_guards network encodeURIComponent email w :
  (truthy email = false ->
   fetchUserProfile network encodeURIComponent email w
   = (Abrupt (JsError (VStr "Profil için e-posta sağlanmalı.")), w))
  /\ (forall v,
         fst (fetchUserProfile network encodeURIComponent email w) = Normal v ->
         v <> VUndefined).
Proof.
  split.
  - intros T. unfold fetchUserProfile. rewrite T. reflexivity.
  - intros v. unfold fetchUserProfile.
    destruct (negb (truthy email)); [discriminate |].
    destruct (encodeURIComponent email) as [s |]; [| discriminate].
    unfold bind. destruct (get network _ w) as [[result | e] w1];
      [| discriminate].
    destruct (truthy result) eqn:T; cbn [negb].
    + destruct (member result "profile") eqn:M; cbn [fst];
        intros [= <-]; try discriminate.
      intros ->. discriminate T.
    + intros [= <-]. discriminate.
Qed.

Lemma fetchUserProfile_guards_witness :
  fetchUserProfile net_down encode_plain (VStr "") w_default
  = (Abrupt (JsError (VStr "Profil için e-posta sağlanmalı.")), w_default).
Proof.
  exact (proj1 (fetchUserProfile_guards net_down encode_plain (VStr "")
                  w_default) eq_refl).
Defined.

(** X17: a profile the server does not know (status 404) reads as null,
    not as an error: one request to the profile route of the active
    origin, with the encoded address in the query. *)
Theorem fetchUserProfile_unknown_is_null
  network encodeURIComponent email encoded w error r :
  let c := config "get"
             (makeUrl (activeBaseUrl w) ("/api/profile?email=" ++ encoded))
             VUndefined in
  truthy email = true ->
  encodeURIComponent email = Some encoded ->
  network (trace w) c = Rejected error ->
  response error = Some r ->
  status r = 404%Z ->
  fst (fetchUserProfile network encodeURIComponent email w) = Normal VNull
  /\ sent (trace (snd (fetchUserProfile network encodeURIComponent email w)))
     = (sent (trace w) ++ [c])%list.
Proof.
  cbn zeta. intros T E N Hr Hs.
  unfold fetchUserProfile, get, bind. rewrite T, E. cbn [negb].
  rewrite request_flat. cbn zeta. rewrite N.
  rewrite (response_no_retry _ _ _ _ Hr), surface_eq.
  unfold status_is_404. rewrite Hr, Hs. cbn.
  split; [reflexivity |].
  rewrite !sent_app. cbn. rewrite app_nil_r. reflexivity.
Qed.

Lemma fetchUserProfile_unknown_is_null_witness :
  fst (fetchUserProfile (net_rejects 404 VNull) encode_plain (VStr "a@b.c")
         w_default) = Normal VNull
  /\ sent (trace (snd (fetchUserProfile (net_rejects 404 VNull) encode_plain
                         (VStr "a@b.c") w_default)))
     = [config "get" "http://localhost:5000/api/profile?email=a@b.c"
          VUndefined].
Proof.
  exact (fetchUserProfile_unknown_is_null (net_rejects 404 VNull) encode_plain
           (VStr "a@b.c") "a@b.c" w_default (http_error 404 VNull) _
           eq_refl eq_refl eq_refl eq_refl eq_refl).
Defined.

(** X18: of a body the server answers with, [fetchUserProfile] returns
    the [profile] member whenever the body has one that is not undefined,
    be it null or another falsy value, and the body itself otherwise. *)
Theorem fetchUserProfile_unwraps
  network encodeURIComponent email encoded w r :
  truthy email = true ->
  encodeURIComponent email = Some encoded ->
  network (trace w)
    (config "get"
       (makeUrl (activeBaseUrl w) ("/api/profile?email=" ++ encoded))
       VUndefined)
  = Resolved r ->
  truthy (data r) = true ->
  fst (fetchUserProfile network encodeURIComponent email w)
  = Normal (match member (data r) "profile" with
            | VUndefined => data r
            | profile => profile
            end).
Proof.
  intros T E N Td.
  unfold fetchUserProfile, get, bind. rewrite T, E. cbn [negb].
  rewrite request_flat. cbn zeta. rewrite N. cbn [settle].
  rewrite Td. cbn [negb].
  destruct (member (data r) "profile"); reflexivity.
Qed.

Lemma fetchUserProfile_unwraps_witness :
  fst (fetchUserProfile
         (net_replies 200 (VObj [("profile", VNull)]))
         encode_plain (VStr "a@b.c") w_default)
  = Normal VNull.
Proof.
  exact (fetchUserProfile_unwraps
           (net_replies 200 (VObj [("profile", VNull)]))
           encode_plain (VStr "a@b.c") "a@b.c" w_default
           {| status := 200; data := VObj [("profile", VNull)] |}
           eq_refl eq_refl eq_refl eq_refl).
Defined.

(** *** [sendChatMessage] *)

(** X19: when the chat request comes back with a body, [sendChatMessage]
    returns the [reply] member of it, undefined when the body has none,
    and logs nothing; a null or undefined body makes it log the
    TypeError and return the apology. *)
Theorem sendChatMessage_reads_reply network message chartData w body w1 :
  post network "/chat/message"
    (VObj [("message", message); ("chart", chartData)]) w
  = (Normal body, w1) ->
  sendChatMessage network message chartData w
  = if nullish body
    then (Normal (VStr "Üzgünüm, şu anda yanıt veremiyorum."),
          record (ConsoleError [LogVal (VStr "Chat error:");
                                LogExn JsTypeError]) w1)
    else (Normal (member body "reply"), w1).
Proof.
  intros H. unfold sendChatMessage, try_catch, bind. rewrite H.
  unfold read_member. destruct (nullish body); reflexivity.
Qed.

Lemma sendChatMessage_reads_reply_witness :
  fst (sendChatMessage (net_replies 200 (VObj [("reply", VStr "Selam")]))
         (VStr "Merhaba") VNull w_default)
  = Normal (VStr "Selam").
Proof.
  rewrite (sendChatMessage_reads_reply
             (net_replies 200 (VObj [("reply", VStr "Selam")]))
             (VStr "Merhaba") VNull w_default
             (VObj [("reply", VStr "Selam")]) _ eq_refl).
  reflexivity.
Defined.

(** ** Where the exports send their requests *)

Lemma makeUrl_slash_path base path :
  startsWith path "/" = true ->
  makeUrl base path = replace_final_slash base ++ path.
Proof.
  destruct path as [| c p]; [discriminate |].
  unfold startsWith. cbn [String.prefix].
  destruct (ascii_dec "/" c) as [<- |]; [| discriminate].
  intros _. destruct p; reflexivity.
Qed.

Lemma under_origin_makeUrl base path :
  startsWith path "/" = true -> under_origin base (makeUrl base path).
Proof.
  intros H. exists path. split; [exact H | apply makeUrl_slash_path, H].
Qed.

Section Quiet.

Context {A B : Type}.

Lemma quiet_ret (a : A) : quiet (ret a).
Proof.
  intros w. exists []. cbn. rewrite app_nil_r. destruct w. repeat split.
Qed.

Lemma quiet_throw (e : Exn) : quiet (@throw A e).
Proof.
  intros w. exists []. cbn. rewrite app_nil_r. destruct w. repeat split.
Qed.

Lemma quiet_bind (m : Js A) (k : A -> Js B) :
  quiet m -> (forall a, quiet (k a)) -> quiet (bind m k).
Proof.
  intros Hm Hk w. unfold bind. destruct (Hm w) as (t0 & E0 & S0 & A0).
  destruct (m w) as [[a | e] w0]; cbn [snd] in *.
  - destruct (Hk a w0) as (t1 & E1 & S1 & A1).
    exists (t0 ++ t1)%list. rewrite E1, E0. cbn [activeBaseUrl trace].
    rewrite app_assoc, sent_app, assignments_app, S0, S1, A0, A1.
    repeat split.
  - exists t0. repeat split; assumption.
Qed.

Lemma quiet_try_catch (m : Js A) (h : Exn -> Js A) :
  quiet m -> (forall e, quiet (h e)) -> quiet (try_catch m h).
Proof.
  intros Hm Hh w. unfold try_catch. destruct (Hm w) as (t0 & E0 & S0 & A0).
  destruct (m w) as [[a | e] w0]; cbn [snd] in *.
  - exists t0. repeat split; assumption.
  - destruct (Hh e w0) as (t1 & E1 & S1 & A1).
    exists (t0 ++ t1)%list. rewrite E1, E0. cbn [activeBaseUrl trace].
    rewrite app_assoc, sent_app, assignments_app, S0, S1, A0, A1.
    repeat split.
Qed.

Lemma stays_home_quiet (m : Js A) : quiet m -> stays_home m.
Proof.
  intros Hm w. destruct (Hm w) as (t & E & S & _).
  exists t. rewrite E, S. cbn. repeat split; [lia | constructor].
Qed.

Lemma stays_home_quiet_bind (m : Js A) (k : A -> Js B) :
  quiet m -> (forall a, stays_home (k a)) -> stays_home (bind m k).
Proof.
  intros Hm Hk w. unfold bind. destruct (Hm w) as (t0 & E0 & S0 & _).
  destruct (m w) as [[a | e] w0]; cbn [snd] in *.
  - destruct (Hk a w0) as (t1 & E1 & L1 & F1).
    exists (t0 ++ t1)%list. rewrite E1, E0 in *. cbn [activeBaseUrl trace] in *.
    rewrite app_assoc, sent_app, S0. repeat split; assumption.
  - exists t0. rewrite E0, S0. cbn. repeat split; [lia | constructor].
Qed.

Lemma stays_home_bind_quiet (m : Js A) (k : A -> Js B) :
  stays_home m -> (forall a, quiet (k a)) -> stays_home (bind m k).
Proof.
  intros Hm Hk w. unfold bind. destruct (Hm w) as (t0 & E0 & L0 & F0).
  destruct (m w) as [[a | e] w0]; cbn [snd] in *.
  - destruct (Hk a w0) as (t1 & E1 & S1 & _).
    exists (t0 ++ t1)%list. rewrite E1. cbn [trace]. rewrite E0.
    rewrite app_assoc, sent_app, S1, app_nil_r. repeat split; assumption.
  - exists t0. repeat split; assumption.
Qed.

Lemma stays_home_try_catch (m : Js A) (h : Exn -> Js A) :
  stays_home m -> (forall e, quiet (h e)) -> stays_home (try_catch m h).
Proof.
  intros Hm Hh w. unfold try_catch. destruct (Hm w) as (t0 & E0 & L0 & F0).
  destruct (m w) as [[a | e] w0]; cbn [snd] in *.
  - exists t0. repeat split; assumption.
  - destruct (Hh e w0) as (t1 & E1 & S1 & _).
    exists (t0 ++ t1)%list. rewrite E1. cbn [trace]. rewrite E0.
    rewrite app_assoc, sent_app, S1, app_nil_r. repeat split; assumption.
Qed.

End Quiet.

Lemma quiet_console_warn args : quiet (console_warn args).
Proof. intros w. eexists. repeat split. Qed.

Lemma quiet_console_error args : quiet (console_error args).
Proof. intros w. eexists. repeat split. Qed.

Lemma stays_home_request network method path payload attempt :
  startsWith path "/" = true ->
  stays_home (request network method path payload attempt).
Proof.
  intros Hp w.
  destruct (request_effect network method path payload attempt w)
    as (t & Ht & [(_ & _ & Hs) | (_ & _ & _ & _ & _ & Hs)]);
    exists t; (split; [exact Ht |]); rewrite Hs; (split; [cbn; lia |]).
  - apply Forall_cons; [| apply Forall_nil].
    left. apply under_origin_makeUrl, Hp.
  - apply Forall_cons; [| apply Forall_cons; [| apply Forall_nil]].
    + left. apply under_origin_makeUrl, Hp.
    + right. apply under_origin_makeUrl, Hp.
Qed.

Create HintDb home.
#[local] Hint Resolve quiet_ret quiet_throw quiet_console_warn
  quiet_console_error : home.
#[local] Hint Extern 2 (quiet (bind _ _)) =>
  apply quiet_bind; [| intro] : home.
#[local] Hint Extern 2 (quiet (try_catch _ _)) =>
  apply quiet_try_catch; [| intro] : home.
#[local] Hint Extern 3 (quiet (match ?x with _ => _ end)) =>
  destruct x : home.
#[local] Hint Extern 1 (stays_home (request _ _ _ _ _)) =>
  apply stays_home_request; reflexivity : home.
#[local] Hint Extern 2 (stays_home (bind (request _ _ _ _ _) _)) =>
  apply stays_home_bind_quiet; [| intro] : home.
#[local] Hint Extern 3 (stays_home (bind _ _)) =>
  apply stays_home_quiet_bind; [| intro] : home.
#[local] Hint Extern 2 (stays_home (try_catch _ _)) =>
  apply stays_home_try_catch; [| intro] : home.
#[local] Hint Extern 4 (stays_home (match ?x with _ => _ end)) =>
  destruct x : home.
#[local] Hint Extern 5 (stays_home _) =>
  apply stays_home_quiet : home.

(** X20: whatever an export is called with and whatever the network
    does, the call reaches axios at most twice, and only at URLs made of
    the origin that was active when the call began, or of the fallback
    origin, followed by a path that starts with a slash: the exports
    never address a third host. *)
Theorem exports_stay_with_their_origins
  network JSON_parse encodeURIComponent call w :
  exists t,
    trace (snd (run_call network JSON_parse encodeURIComponent call w))
    = (trace w ++ t)%list
    /\ (length (sent t) <= 2)%nat
    /\ Forall (fun c =>
                 under_origin (activeBaseUrl w) (Config.url c)
                 \/ under_origin REMOTE_FALLBACK_URL (Config.url c))
         (sent t).
Proof.
  revert w.
  change (stays_home (run_call network JSON_parse encodeURIComponent call)).
  destruct call; cbn [run_call];
    unfold calculateNatalChart, getInterpretation, getAlternateNarrative,
      calculateSynastry, saveUserProfile, fetchUserProfile, updateUserProfile,
      sendChatMessage, parse_or_null, parse, read_member, post, put, get;
    auto 14 with home.
Qed.

(** ** The data of the life-narrative card *)

Lemma index_key_inj i j : index_key i = index_key j -> i = j.
Proof.
  unfold index_key. intros H.
  apply DecimalNat.Unsigned.to_uint_inj.
  assert (E : NilEmpty.uint_of_string (NilEmpty.string_of_uint (Nat.to_uint i))
              = NilEmpty.uint_of_string
                  (NilEmpty.string_of_uint (Nat.to_uint j)))
    by (rewrite H; reflexivity).
  rewrite !NilEmpty.usu in E. congruence.
Qed.

Lemma append_inj_r p a b : p ++ a = p ++ b -> a = b.
Proof.
  induction p as [| c p IH]; cbn; [auto |].
  intros [= H]. exact (IH H).
Qed.

Lemma keyed_In sanitize label n items e :
  In e (keyed sanitize label n items) ->
  exists j item,
    nth_error items j = Some item
    /\ key e = label ++ "-" ++ index_key (n + j)
    /\ text e = sanitize item.
Proof.
  revert n. induction items as [| item rest IH]; intros n; cbn [keyed In].
  - contradiction.
  - intros [<- | H].
    + exists 0%nat, item. rewrite Nat.add_0_r. repeat split.
    + destruct (IH _ H) as (j & it & Hn & Hk & Ht).
      exists (S j), it. rewrite Nat.add_succ_r. repeat split; assumption.
Qed.

Lemma keyed_NoDup sanitize label f n items :
  NoDup (map key (filter f (keyed sanitize label n items))).
Proof.
  revert n. induction items as [| item rest IH]; intros n; cbn [keyed filter].
  - constructor.
  - destruct (f _); [| apply IH].
    cbn [map key]. constructor; [| apply IH].
    intros H. apply in_map_iff in H. destruct H as (e & Hk & He).
    apply filter_In in He. destruct He as [He _].
    apply keyed_In in He. destruct He as (j & _ & _ & Hj & _).
    rewrite Hj in Hk. apply append_inj_r in Hk.
    change ("-" ++ index_key (S n + j) = "-" ++ index_key n) in Hk.
    apply append_inj_r, index_key_inj in Hk. lia.
Qed.

Lemma keyed_texts_sound sanitize label v :
  NoDup (map key (keyed_texts sanitize label v))
  /\ Forall (fun e => truthy (text e) = true) (keyed_texts sanitize label v)
  /\ (forall items e,
         v = VArr items -> In e (keyed_texts sanitize label v) ->
         exists i item,
           nth_error items i = Some item
           /\ key e = label ++ "-" ++ index_key i
           /\ text e = sanitize item).
Proof.
  unfold keyed_texts. split; [| split].
  - destruct v; try constructor. apply keyed_NoDup.
  - destruct v; try constructor.
    apply Forall_forall. intros e He. apply filter_In in He. apply He.
  - intros items e -> He. apply filter_In in He. destruct He as [He _].
    apply keyed_In in He. exact He.
Qed.

(** X21: the reasons and the actions the card lists carry pairwise
    distinct keys and no blank text; each listed entry is the sanitized
    item of the array at the index its key names, so the keys keep the
    positions of the items that were dropped as blank.  A [reasons] or
    [actions] that is no array lists nothing. *)
Theorem reasons_and_actions_are_keyed sanitize story :
  (NoDup (map key (reasons sanitize story))
   /\ Forall (fun e => truthy (text e) = true) (reasons sanitize story)
   /\ (forall items e,
          story?."reasons" = VArr items -> In e (reasons sanitize story) ->
          exists i item,
            nth_error items i = Some item
            /\ key e = "reason-" ++ index_key i
            /\ text e = sanitize item)
   /\ ((forall items, story?."reasons" <> VArr items) ->
       reasons sanitize story = []))
  /\ (NoDup (map key (actions sanitize story))
      /\ Forall (fun e => truthy (text e) = true) (actions sanitize story)
      /\ (forall items e,
             story?."actions" = VArr items -> In e (actions sanitize story) ->
             exists i item,
               nth_error items i = Some item
               /\ key e = "action-" ++ index_key i
               /\ text e = sanitize item)
      /\ ((forall items, story?."actions" <> VArr items) ->
          actions sanitize story = [])).
Proof.
  unfold reasons, actions. split.
  - destruct (keyed_texts_sound sanitize "reason" story?."reasons")
      as (H1 & H2 & H3).
    repeat split; try assumption.
    intros H. unfold keyed_texts.
    destruct (story?."reasons"); try reflexivity.
    exfalso. eapply H. reflexivity.
  - destruct (keyed_texts_sound sanitize "action" story?."actions")
      as (H1 & H2 & H3).
    repeat split; try assumption.
    intros H. unfold keyed_texts.
    destruct (story?."actions"); try reflexivity.
    exfalso. eapply H. reflexivity.
Qed.

Lemma reasons_and_actions_are_keyed_witness :
  reasons strings_only
    (VObj [("reasons", VArr [VStr "Ay"; VNull; VStr "Güneş"])])
  = [{| key := "reason-0"; text := VStr "Ay" |};
     {| key := "reason-2"; text := VStr "Güneş" |}]
  /\ reasons strings_only (VObj [("reasons", VStr "Ay")]) = [].
Proof.
  split; [reflexivity |].
  exact (proj2 (proj2 (proj2 (proj1
           (reasons_and_actions_are_keyed strings_only
              (VObj [("reasons", VStr "Ay")])))))
           ltac:(discriminate)).
Defined.

(** X22: the card is never short of words: headline, summary, axis and
    focus are truthy whatever the props and whatever [sanitize] returns,
    and the themes it shows, of the story and of the meta data, hold no
    blank entry. *)
Theorem card_texts_are_never_blank sanitize story meta :
  truthy (headline sanitize story) = true
  /\ truthy (summary sanitize story) = true
  /\ truthy (axis sanitize meta) = true
  /\ truthy (focus sanitize meta) = true
  /\ Forall (fun t => truthy t = true) (themes sanitize story)
  /\ Forall (fun t => truthy t = true) (themes sanitize meta).
Proof.
  assert (D : forall x s, truthy (VStr s) = true ->
                          truthy (x ||| VStr s) = true).
  { intros x s H. unfold js_or. destruct (truthy x) eqn:T; assumption. }
  assert (F : forall v, Forall (fun t => truthy t = true) (themes sanitize v)).
  { intros v. unfold themes. destruct (v?."themes"); try constructor.
    apply Forall_forall. intros t Ht. apply filter_In in Ht. apply Ht. }
  unfold headline, summary, axis, focus.
  repeat split; try (apply D; reflexivity); apply F.
Qed.



(** ** Charts that are not charts *)

(** X24: [getInterpretation] turns no chart away.  Whatever it is given,
    undefined and unparsable strings included, its first request is a
    post to the interpretation route of the active origin, with one and
    the same value in [chart] and [chart_data]: the argument itself, what
    the argument parses to, or null for a string that does not parse. *)
Theorem getInterpretation_always_posts network JSON_parse chartData w :
  exists preparedChart t,
    sent (trace (snd (getInterpretation network JSON_parse chartData w)))
    = (sent (trace w)
       ++ config "post" (makeUrl (activeBaseUrl w) "/interpretation")
            (VObj [("chart", preparedChart); ("chart_data", preparedChart)])
          :: t)%list
    /\ match chartData with
       | VStr s =>
           match JSON_parse s with
           | Some v => preparedChart = v
           | None => preparedChart = VNull
           end
       | _ => preparedChart = chartData
       end.
Proof.
  assert (R : forall preparedChart w1,
             activeBaseUrl w1 = activeBaseUrl w ->
             sent (trace w1) = sent (trace w) ->
             exists t,
               sent (trace (snd ((data <- post network "/interpretation"
                                    (VObj [("chart", preparedChart);
                                           ("chart_data", preparedChart)]) ;;
                                  ret (prepared data)) w1)))
               = (sent (trace w)
                  ++ config "post"
                       (makeUrl (activeBaseUrl w) "/interpretation")
                       (VObj [("chart", preparedChart);
                              ("chart_data", preparedChart)])
                     :: t)%list).
  { intros pc w1 Ha Hs. unfold bind, post.
    destruct (request_first_sent network "post" "/interpretation"
                (VObj [("chart", pc); ("chart_data", pc)]) 0 w1) as (t & Ht).
    destruct (request network "post" "/interpretation" _ 0 w1)
      as [[data | e] w2]; cbn [snd ret] in *;
      rewrite Ht, sent_app, Hs, Ha; cbn; eexists; reflexivity. }
  unfold getInterpretation.
  assert (W : forall pc (w0 : World),
             activeBaseUrl w0 = activeBaseUrl w ->
             sent (trace w0) = sent (trace w) ->
             exists w1,
               snd ((if negb (truthy pc) || negb (typeof_object pc)
                     then console_warn
                            [LogVal (VStr "Invalid chart data supplied to getInterpretation");
                             LogVal chartData]
                     else ret tt) w0) = w1
               /\ fst ((if negb (truthy pc) || negb (typeof_object pc)
                        then console_warn
                               [LogVal (VStr "Invalid chart data supplied to getInterpretation");
                                LogVal chartData]
                        else ret tt) w0) = Normal tt
               /\ activeBaseUrl w1 = activeBaseUrl w
               /\ sent (trace w1) = sent (trace w)).
  { intros pc w0 Ha Hs.
    destruct (negb (truthy pc) || negb (typeof_object pc)); eexists;
      (split; [reflexivity |]); (split; [reflexivity |]); cbn;
      rewrite ?sent_app, ?Hs; cbn; rewrite ?app_nil_r; auto. }
  assert (G : forall pc (w0 : World),
             activeBaseUrl w0 = activeBaseUrl w ->
             sent (trace w0) = sent (trace w) ->
             exists t,
               sent (trace (snd
                 (((if negb (truthy pc) || negb (typeof_object pc)
                    then console_warn
                           [LogVal (VStr "Invalid chart data supplied to getInterpretation");
                            LogVal chartData]
                    else ret tt) ;;;
                   data <- post network "/interpretation"
                             (VObj [("chart", pc); ("chart_data", pc)]) ;;
                   ret (prepared data)) w0)))
               = (sent (trace w)
                  ++ config "post"
                       (makeUrl (activeBaseUrl w) "/interpretation")
                       (VObj [("chart", pc); ("chart_data", pc)])
                     :: t)%list).
  { intros pc w0 Ha Hs.
    destruct (W pc w0 Ha Hs) as (w1 & E1 & E2 & Ha1 & Hs1).
    unfold bind at 1.
    destruct ((if negb (truthy pc) || negb (typeof_object pc)
               then console_warn _ else ret tt) w0) as [c w1'] eqn:E.
    cbn [fst snd] in E1, E2. subst c w1'.
    apply R; assumption. }
  assert (P : exists pc w0,
             match chartData with
             | VStr s => parse_or_null JSON_parse s
             | _ => ret chartData
             end w = (Normal pc, w0)
             /\ activeBaseUrl w0 = activeBaseUrl w
             /\ sent (trace w0) = sent (trace w)
             /\ match chartData with
                | VStr s =>
                    match JSON_parse s with
                    | Some v => pc = v
                    | None => pc = VNull
                    end
                | _ => pc = chartData
                end).
  { destruct chartData as [| | b | n | s | items | props];
      try (eexists _, w; repeat split; reflexivity).
    unfold parse_or_null, parse, try_catch.
    destruct (JSON_parse s) as [v |].
    - exists v, w. repeat split.
    - eexists VNull, _. split; [reflexivity |]. split; [reflexivity |].
      split; [| reflexivity].
      cbn. rewrite sent_app. cbn. apply app_nil_r. }
  destruct P as (pc & w0 & E & Ha & Hs & Hpc).
  unfold bind at 1. rewrite E.
  destruct (G pc w0 Ha Hs) as (t & Ht).
  exists pc, t. split; [exact Ht | exact Hpc].
Qed.
